(** * regions.core.core : the region hierarchy and its validated attributes

    A shallow embedding of [src/regions/core/core.py]: the descriptor
    classes ([RegionAttr] and its subclasses, the annulus descriptors),
    the region algebra of [Region] / [PixelRegion] / [SkyRegion], the
    mask-mode validation and the two metadata dictionaries.

    Python objects are object identities ([objid]); the mutable state a
    function touches is threaded explicitly through the monad [M], which
    also carries raised exceptions.  A raise keeps whatever was mutated
    before it, as in Python. *)

From Stdlib Require Import ZArith QArith String List Lia.
From stdpp Require Import gmap strings.

Local Open Scope string_scope.

(** ** Python values *)

Definition objid := positive.

(** A numpy array: its shape and its flattened data. *)
Record ndarray := mk_ndarray { shape : list nat; data : list Q }.

Definition ndim (a : ndarray) : nat := length (shape a).

(** Modelled from the spec: [pixcoord.py] is not under src/.  A pixel
    coordinate is a scalar x/y pair or a pair of arrays, and exposes the
    "is this a single point" query [isscalar]. *)
Inductive PixCoord :=
| PixCoord_scalar (x y : Q)
| PixCoord_array (x y : ndarray).

Definition PixCoord_isscalar (p : PixCoord) : bool :=
  match p with PixCoord_scalar _ _ => true | PixCoord_array _ _ => false end.

(** [astropy.coordinates.SkyCoord]: scalar exactly when its shape is (). *)
Record SkyCoord := mk_SkyCoord { sky_shape : list nat; ra : list Q; dec : list Q }.

Definition SkyCoord_ndim (c : SkyCoord) : nat := length (sky_shape c).
Definition SkyCoord_isscalar (c : SkyCoord) : bool := Nat.eqb (SkyCoord_ndim c) 0.

(** [astropy.units.Quantity]: an array with a unit, scalar when its shape is (). *)
Record Quantity := mk_Quantity { q_shape : list nat; q_value : list Q; q_unit : string }.

Definition Quantity_isscalar (q : Quantity) : bool := Nat.eqb (length (q_shape q)) 0.

(** The frame family of a region: a subclass of [PixelRegion] or of [SkyRegion]. *)
Inductive frame := Pixel | Sky.

(** The three callables of the [operator] module the algebra passes on. *)
Inductive pyoperator := operator_and_ | operator_or_ | operator_xor.

(** Dynamically typed values.  [PyBool], [PyInt] and [PyFloat] are the
    Python [bool], [int] and finite [float], the latter held as the
    rational it denotes; [PyNaN] and [PyInf] are the other Python floats;
    [PyNumpy] is a numpy scalar (an [int64], a [float64], ...) with its
    dtype, which is an instance of none of the Python number classes
    tested in this file.  A region is either an instance of a concrete
    shape class (those live outside this file and are identified by object
    identity) or a compound holding its two operands and its operator. *)
Inductive pyval :=
| PyNone
| PyBool (b : bool)
| PyInt (z : Z)
| PyFloat (q : Q)
| PyNaN
| PyInf (negative : bool)
| PyNumpy (dtype : string) (value : Q)
| PyStr (s : string)
| PyNdarray (a : ndarray)
| PyPixCoord (p : PixCoord)
| PySkyCoord (c : SkyCoord)
| PyQuantity (q : Quantity)
| PyRegion (r : Region)
with Region :=
| Shape (f : frame) (id : objid)
| Compound (f : frame) (region1 region2 : pyval) (operator : pyoperator).

Definition frame_of (r : Region) : frame :=
  match r with Shape f _ => f | Compound f _ _ _ => f end.

(** ** Exceptions and the state-and-exception monad *)

Inductive exn_class := ValueError | KeyError | TypeError | AttributeError.

(** An exception carries its class, the format template of its message and
    the arguments given to [str.format]. *)
Record exn := Raise { exn_cls : exn_class; exn_format : string; exn_args : list pyval }.

Definition result (A : Type) : Type := exn + A.

Definition M (S A : Type) : Type := S -> result A * S.

Definition ret {S A} (a : A) : M S A := fun s => (inr a, s).

Definition raise {S A} (e : exn) : M S A := fun s => (inl e, s).

Definition bind {S A B} (m : M S A) (k : A -> M S B) : M S B :=
  fun s => match m s with
           | (inl e, s') => (inl e, s')
           | (inr a, s') => k a s'
           end.

Definition lift {S A} (r : result A) : M S A := fun s => (r, s).

Definition get_state {S} : M S S := fun s => (inr s, s).

Definition put_state {S} (s : S) : M S unit := fun _ => (inr tt, s).

Notation "'let*' x ':=' m 'in' k" := (bind m (fun x => k))
  (at level 10, x name, m at level 100, k at level 200).

(** Running the same computation without state, for pure validators. *)
Definition rbind {A B} (r : result A) (k : A -> result B) : result B :=
  match r with inl e => inl e | inr a => k a end.

(** ** Type tests *)

Definition isinstance_PixCoord (v : pyval) : bool :=
  match v with PyPixCoord _ => true | _ => false end.

Definition isinstance_SkyCoord (v : pyval) : bool :=
  match v with PySkyCoord _ => true | _ => false end.

Definition isinstance_Quantity (v : pyval) : bool :=
  match v with PyQuantity _ => true | _ => false end.

Definition isinstance_PixelRegion (v : pyval) : bool :=
  match v with PyRegion r => match frame_of r with Pixel => true | Sky => false end | _ => false end.

Definition isinstance_SkyRegion (v : pyval) : bool :=
  match v with PyRegion r => match frame_of r with Sky => true | Pixel => false end | _ => false end.

(** [isinstance(v, int)]: [bool] is a subclass of [int]; the numpy
    integers are not. *)
Definition isinstance_int (v : pyval) : bool :=
  match v with PyInt _ | PyBool _ => true | _ => false end.

(** [np.isscalar]: Python and numpy scalar numbers and strings; arrays,
    quantities, coordinates, regions and [None] are not scalars. *)
Definition np_isscalar (v : pyval) : bool :=
  match v with
  | PyBool _ | PyInt _ | PyFloat _ | PyNaN | PyInf _ | PyNumpy _ _ | PyStr _ => true
  | _ => false
  end.

(** [value.isscalar] where the test only runs after the [isinstance] check. *)
Definition isscalar (v : pyval) : bool :=
  match v with
  | PyPixCoord p => PixCoord_isscalar p
  | PySkyCoord c => SkyCoord_isscalar c
  | PyQuantity q => Quantity_isscalar q
  | _ => false
  end.

(** ** RegionAttr and its subclasses *)

Inductive attr_class :=
| ScalarPix | OneDPix | ScalarLength | ScalarSky | OneDSky | QuantityLength
| CompoundRegionPix | CompoundRegionSky.

(** The condition each [_validate] tests before raising. *)
Definition attr_accepts (c : attr_class) (value : pyval) : bool :=
  match c with
  | ScalarPix => isinstance_PixCoord value && isscalar value
  | OneDPix =>
      match value with
      | PyPixCoord p =>
          negb (PixCoord_isscalar p) &&
          match p with PixCoord_array x _ => Nat.eqb (ndim x) 1 | _ => false end
      | _ => false
      end
  | ScalarLength => np_isscalar value
  | ScalarSky => isinstance_SkyCoord value && isscalar value
  | OneDSky =>
      match value with
      | PySkyCoord s => Nat.eqb (SkyCoord_ndim s) 1
      | _ => false
      end
  | QuantityLength => isinstance_Quantity value && isscalar value
  | CompoundRegionPix => isinstance_PixelRegion value
  | CompoundRegionSky => isinstance_SkyRegion value
  end.

Definition attr_message (c : attr_class) : string :=
  match c with
  | ScalarPix => "The {} must be a 0D PixCoord object"
  | OneDPix => "The {} must be a 1D PixCoord object"
  | ScalarLength => "The {} must be a scalar numpy/python number"
  | ScalarSky => "The {} must be a 0D SkyCoord object"
  | OneDSky => "The {} must be a 1D SkyCoord object"
  | QuantityLength => "The {} must be a scalar astropy Quantity object"
  | CompoundRegionPix => "The {} must be a PixelRegion object"
  | CompoundRegionSky => "The {} must be a SkyRegion object"
  end.

Definition _validate (c : attr_class) (_name : string) (value : pyval) : result unit :=
  if negb (attr_accepts c value)
  then inl (Raise ValueError (attr_message c) [PyStr _name])
  else inr tt.

(** A descriptor object: its class, its [_name] and the side table
    [_values] keyed by the identity of the owning instance. *)
Record RegionAttr := mk_RegionAttr {
  attr_cls : attr_class;
  _name : string;
  _values : gmap objid pyval
}.

Definition RegionAttr___init__ (c : attr_class) (name : string) : RegionAttr :=
  mk_RegionAttr c name ∅.

(** [__get__] for an instance ([instance is None], the access through the
    class, returns the descriptor itself and is not a read of the field). *)
Definition RegionAttr___get__ (self : RegionAttr) (instance : objid) : pyval :=
  default PyNone (_values self !! instance).

Definition RegionAttr___set__ (instance : objid) (value : pyval) : M RegionAttr unit :=
  let* self := get_state in
  let* ok := lift (_validate (attr_cls self) (_name self) value) in
  put_state (mk_RegionAttr (attr_cls self) (_name self) (<[instance := value]> (_values self))).

(** A caller that performs assignments one after the other and catches
    the exceptions: what is left in the descriptor afterwards. *)
Fixpoint assign_all (ops : list (objid * pyval)) (self : RegionAttr) : RegionAttr :=
  match ops with
  | [] => self
  | (instance, value) :: rest =>
      assign_all rest (snd (RegionAttr___set__ instance value self))
  end.

(** The last value of [ops] written to [instance] that the class accepts. *)
Fixpoint last_accepted (c : attr_class) (instance : objid)
    (ops : list (objid * pyval)) : option pyval :=
  match ops with
  | [] => None
  | (i, v) :: rest =>
      match last_accepted c instance rest with
      | Some w => Some w
      | None => if bool_decide (i = instance) && attr_accepts c v then Some v else None
      end
  end.

(** ** Attribute access on the operands of a compound

    The operands of an annulus-like compound are instances of one shape
    class.  [class_attrs] is the namespace of that class (the descriptors
    it declares, by attribute name) and [inst_dict] holds the plain
    instance attributes.  A [RegionAttr] defines [__set__], so it is a
    data descriptor and takes precedence over the instance dictionary. *)

Record heap := mk_heap {
  class_attrs : gmap string RegionAttr;
  inst_dict : gmap (objid * string) pyval
}.

Definition getattr (obj : objid) (name : string) : M heap pyval :=
  let* h := get_state in
  match class_attrs h !! name with
  | Some d => ret (RegionAttr___get__ d obj)
  | None =>
      match inst_dict h !! (obj, name) with
      | Some v => ret v
      | None => raise (Raise AttributeError "object has no attribute {}" [PyStr name])
      end
  end.

Definition setattr (obj : objid) (name : string) (value : pyval) : M heap unit :=
  let* h := get_state in
  match class_attrs h !! name with
  | Some d =>
      let (r, d') := RegionAttr___set__ obj value d in
      let* u := put_state (mk_heap (<[name := d']> (class_attrs h)) (inst_dict h)) in
      lift r
  | None =>
      put_state (mk_heap (class_attrs h) (<[(obj, name) := value]> (inst_dict h)))
  end.

(** What [getattr(obj, name)] evaluates to in a heap. *)
Definition attr_of (h : heap) (obj : objid) (name : string) : result pyval :=
  fst (getattr obj name h).

(** A descriptor after [_values[instance] = value]. *)
Definition stored (d : RegionAttr) (instance : objid) (value : pyval) : RegionAttr :=
  mk_RegionAttr (attr_cls d) (_name d) (<[instance := value]> (_values d)).

(** The operands of a circle annulus: objects 1 and 2 of a shape class
    declaring [center = ScalarPix('center')] and
    [radius = ScalarLength('radius')], with the given radii. *)
Definition circle_operands (inner_radius outer_radius : pyval) : heap :=
  mk_heap
    (<["center" := RegionAttr___init__ ScalarPix "center"]>
       (<["radius" := mk_RegionAttr ScalarLength "radius"
                        (<[1%positive := inner_radius]> (<[2%positive := outer_radius]> ∅))]> ∅))
    ∅.

(** ** Comparison of two Python values *)

(** The value of a Python [bool], [int] or finite [float]. *)
Definition as_number (v : pyval) : option Q :=
  match v with
  | PyBool b => Some (inject_Z (Z.b2z b))
  | PyInt z => Some (inject_Z z)
  | PyFloat q => Some q
  | _ => None
  end.

Definition Qltb (x y : Q) : bool := negb (Qle_bool y x).

(** The Python numbers with the float specials. *)
Inductive number := Finite (q : Q) | Infinite (negative : bool) | NaN.

Definition python_number (v : pyval) : option number :=
  match as_number v with
  | Some q => Some (Finite q)
  | None =>
      match v with
      | PyNaN => Some NaN
      | PyInf negative => Some (Infinite negative)
      | _ => None
      end
  end.

(** Python compares an [int] with a [float] by value, without rounding;
    every comparison with nan is false. *)
Definition number_lt (x y : number) : bool :=
  match x, y with
  | NaN, _ | _, NaN => false
  | Finite a, Finite b => Qltb a b
  | Finite _, Infinite negative => negb negative
  | Infinite negative, Finite _ => negative
  | Infinite n1, Infinite n2 => n1 && negb n2
  end.

Definition is_numpy (v : pyval) : bool :=
  match v with PyNumpy _ _ => true | _ => false end.

(** A comparison one of whose operands is a numpy scalar is numpy's: it
    brings both operands to a common dtype, which may round, by rules
    that depend on the dtypes and on the version.  A parameter. *)
Class NumpyCompare := {
  numpy_lt : pyval -> pyval -> result bool;
  numpy_gt : pyval -> pyval -> result bool
}.

(** [a < b]: numpy's when a numpy scalar is involved; Python numbers
    compare by value, strings lexicographically, and any other pair of
    operands raises [TypeError]. *)
Definition py_lt `{NumpyCompare} (a b : pyval) : result bool :=
  if is_numpy a || is_numpy b then numpy_lt a b
  else
    match python_number a, python_number b with
    | Some x, Some y => inr (number_lt x y)
    | _, _ =>
        match a, b with
        | PyStr s, PyStr t => inr (String.ltb s t)
        | _, _ => inl (Raise TypeError "'<' not supported between instances of {} and {}" [a; b])
        end
    end.

(** [a > b]. *)
Definition py_gt `{NumpyCompare} (a b : pyval) : result bool :=
  if is_numpy a || is_numpy b then numpy_gt a b
  else
    match python_number a, python_number b with
    | Some x, Some y => inr (number_lt y x)
    | _, _ =>
        match a, b with
        | PyStr s, PyStr t => inr (String.ltb t s)
        | _, _ => inl (Raise TypeError "'>' not supported between instances of {} and {}" [a; b])
        end
    end.

(** An example of numpy's comparison, for its integer and [float64]
    scalars: two integers are compared by value; otherwise both operands
    are taken to [float64], an integer being rounded to the nearest value
    with a 53-bit significand (ties to even), and compared there. *)
Definition round_to_float64 (z : Z) : Z :=
  let a := Z.abs z in
  let e := (Z.log2 a - 52)%Z in
  if (e <=? 0)%Z then z
  else
    let m := Z.shiftr a e in
    let r := Z.land a (Z.ones e) in
    let half := Z.shiftl 1 (e - 1) in
    let m' := if (half <? r)%Z || ((r =? half)%Z && Z.odd m) then (m + 1)%Z else m in
    (Z.sgn z * Z.shiftl m' e)%Z.

Definition is_integer_dtype (dtype : string) : bool :=
  bool_decide (dtype ∈ ["int8"; "int16"; "int32"; "int64";
                        "uint8"; "uint16"; "uint32"; "uint64"]).

Definition as_integer (v : pyval) : option Z :=
  match v with
  | PyBool b => Some (Z.b2z b)
  | PyInt z => Some z
  | PyNumpy dtype q => if is_integer_dtype dtype then Some (Qnum q) else None
  | _ => None
  end.

Definition to_float64 (v : pyval) : option number :=
  match as_integer v with
  | Some z => Some (Finite (inject_Z (round_to_float64 z)))
  | None =>
      match v with
      | PyNumpy _ q | PyFloat q => Some (Finite q)
      | PyNaN => Some NaN
      | PyInf negative => Some (Infinite negative)
      | _ => None
      end
  end.

Definition numpy_via_float64 : NumpyCompare :=
  {| numpy_lt := fun a b =>
       match as_integer a, as_integer b with
       | Some x, Some y => inr (x <? y)%Z
       | _, _ =>
           match to_float64 a, to_float64 b with
           | Some x, Some y => inr (number_lt x y)
           | _, _ =>
               inl (Raise TypeError "'<' not supported between instances of {} and {}" [a; b])
           end
       end;
     numpy_gt := fun a b =>
       match as_integer a, as_integer b with
       | Some x, Some y => inr (y <? x)%Z
       | _, _ =>
           match to_float64 a, to_float64 b with
           | Some x, Some y => inr (number_lt y x)
           | _, _ =>
               inl (Raise TypeError "'>' not supported between instances of {} and {}" [a; b])
           end
       end |}.

(** ** The annulus descriptors *)

(** The instance an annulus descriptor is bound to: only its two operands
    are read. *)
Record annulus := mk_annulus { region1 : objid; region2 : objid }.

Definition AnnulusCenterPix___get__ (instance : annulus) : M heap pyval :=
  let reg1 := region1 instance in
  getattr reg1 "center".

Definition AnnulusCenterPix___set__ (instance : annulus) (value : pyval) : M heap unit :=
  let reg1 := region1 instance in
  let reg2 := region2 instance in
  if isinstance_PixCoord value && isscalar value then
    let* u := setattr reg1 "center" value in
    setattr reg2 "center" value
  else raise (Raise ValueError "The center must be a 0D PixCoord object" []).

Definition AnnulusInnerScalarLength___get__ (_name : string) (instance : annulus) : M heap pyval :=
  let reg1 := region1 instance in
  getattr reg1 _name.

Definition AnnulusInnerScalarLength___set__ `{NumpyCompare} (_name : string)
    (instance : annulus) (value : pyval) : M heap unit :=
  let reg1 := region1 instance in
  let reg2 := region2 instance in
  if np_isscalar value then
    let* outer := getattr reg2 _name in
    let* too_large := lift (py_lt outer value) in
    if (too_large : bool)
    then raise (Raise ValueError "The inner {0} must be less than the outer {0}" [PyStr _name])
    else setattr reg1 _name value
  else raise (Raise ValueError "The inner {} must be a scalar numpy/python number" [PyStr _name]).

Definition AnnulusOuterScalarLength___get__ (_name : string) (instance : annulus) : M heap pyval :=
  let reg2 := region2 instance in
  getattr reg2 _name.

Definition AnnulusOuterScalarLength___set__ `{NumpyCompare} (_name : string)
    (instance : annulus) (value : pyval) : M heap unit :=
  let reg1 := region1 instance in
  let reg2 := region2 instance in
  if np_isscalar value then
    let* inner := getattr reg1 _name in
    let* too_small := lift (py_gt inner value) in
    if (too_small : bool)
    then raise (Raise ValueError "The outer {0} must be greater than the outer {0}" [PyStr _name])
    else setattr reg2 _name value
  else raise (Raise ValueError "The outer {} must be a scalar numpy/python number" [PyStr _name]).

Definition AnnulusCenterSky___get__ (instance : annulus) : M heap pyval :=
  let reg1 := region1 instance in
  getattr reg1 "center".

Definition AnnulusCenterSky___set__ (instance : annulus) (value : pyval) : M heap unit :=
  let reg1 := region1 instance in
  let reg2 := region2 instance in
  if isinstance_SkyCoord value && isscalar value then
    let* u := setattr reg1 "center" value in
    setattr reg2 "center" value
  else raise (Raise ValueError "The center must be a 0D SkyCoord object" []).

Definition AnnulusAngle___get__ (instance : annulus) : M heap pyval :=
  let reg1 := region1 instance in
  getattr reg1 "angle".

Definition AnnulusAngle___set__ (instance : annulus) (value : pyval) : M heap unit :=
  let reg1 := region1 instance in
  let reg2 := region2 instance in
  if isinstance_Quantity value && isscalar value then
    let* u := setattr reg1 "angle" value in
    setattr reg2 "angle" value
  else raise (Raise ValueError "The angle must be a scalar astropy quantity object" []).

(** What the shared-attribute descriptors of an annulus promise, for a
    descriptor with setter [set] and getter [get] over the operands'
    attribute [n], whose accepted values are those of the class [c]:
    a refused value changes nothing, an accepted value ends up on both
    operands when the operands declare [n] with class [c], no write is
    ever left half done, and a read is a read of [region1]. *)
Definition shared_attribute_contract
    (set : annulus -> pyval -> M heap unit) (get : annulus -> M heap pyval)
    (n : string) (c : attr_class) : Prop :=
  forall (h : heap) (instance : annulus) (value : pyval),
    (attr_accepts c value = false ->
       exists e, set instance value h = (inl e, h) /\ exn_cls e = ValueError)
    /\ (attr_accepts c value = true ->
        (exists d, class_attrs h !! n = Some d /\ attr_cls d = c) ->
        exists h', set instance value h = (inr tt, h')
                   /\ attr_of h' (region1 instance) n = inr value
                   /\ attr_of h' (region2 instance) n = inr value)
    /\ ((exists e, set instance value h = (inl e, h))
        \/ (exists h', set instance value h = (inr tt, h')
                       /\ attr_of h' (region1 instance) n = inr value
                       /\ attr_of h' (region2 instance) n = inr value))
    /\ get instance h = (attr_of h (region1 instance) n, h).

(** ** The region algebra *)

(** Modelled from the spec: [compound.py] is not under src/.  A compound
    region holds [region1], [region2] and the operator; its two operands
    are assigned through the class's [CompoundRegionPix] descriptors, in
    that order, so each is validated before the compound exists. *)
Definition CompoundPixelRegion (region1 region2 : pyval) (operator : pyoperator) : result Region :=
  rbind (_validate CompoundRegionPix "region1" region1) (fun _ =>
  rbind (_validate CompoundRegionPix "region2" region2) (fun _ =>
  inr (Compound Pixel region1 region2 operator))).

(** Modelled from the spec: [compound.py] is not under src/.  The sky
    counterpart, with [CompoundRegionSky] descriptors. *)
Definition CompoundSkyRegion (region1 region2 : pyval) (operator : pyoperator) : result Region :=
  rbind (_validate CompoundRegionSky "region1" region1) (fun _ =>
  rbind (_validate CompoundRegionSky "region2" region2) (fun _ =>
  inr (Compound Sky region1 region2 operator))).

Definition PixelRegion_intersection (self : Region) (other : pyval) : result Region :=
  CompoundPixelRegion (PyRegion self) other operator_and_.

Definition PixelRegion_symmetric_difference (self : Region) (other : pyval) : result Region :=
  CompoundPixelRegion (PyRegion self) other operator_xor.

Definition PixelRegion_union (self : Region) (other : pyval) : result Region :=
  CompoundPixelRegion (PyRegion self) other operator_or_.

Definition SkyRegion_intersection (self : Region) (other : pyval) : result Region :=
  CompoundSkyRegion (PyRegion self) other operator_and_.

Definition SkyRegion_symmetric_difference (self : Region) (other : pyval) : result Region :=
  CompoundSkyRegion (PyRegion self) other operator_xor.

Definition SkyRegion_union (self : Region) (other : pyval) : result Region :=
  CompoundSkyRegion (PyRegion self) other operator_or_.

(** Method resolution: a region is an instance of a subclass of
    [PixelRegion] or of [SkyRegion], which implement the three abstract
    methods of [Region]. *)
Definition intersection (self : Region) (other : pyval) : result Region :=
  match frame_of self with
  | Pixel => PixelRegion_intersection self other
  | Sky => SkyRegion_intersection self other
  end.

Definition symmetric_difference (self : Region) (other : pyval) : result Region :=
  match frame_of self with
  | Pixel => PixelRegion_symmetric_difference self other
  | Sky => SkyRegion_symmetric_difference self other
  end.

Definition union (self : Region) (other : pyval) : result Region :=
  match frame_of self with
  | Pixel => PixelRegion_union self other
  | Sky => SkyRegion_union self other
  end.

Definition Region___and__ (self : Region) (other : pyval) : result Region :=
  intersection self other.

Definition Region___or__ (self : Region) (other : pyval) : result Region :=
  union self other.

Definition Region___xor__ (self : Region) (other : pyval) : result Region :=
  symmetric_difference self other.

(** ** Mask-mode validation *)

Definition VALID_MASK_MODES : gset string := {["center"; "exact"; "subpixels"]}.

(** The order in which the interpreter iterates over a set of strings
    depends on the hash seed of the run.  It is a parameter, of which
    only this is known: it enumerates the members, each once. *)
Class SetIteration := {
  set_iter : gset string -> list string;
  set_iter_members : forall s, set_iter s ≡ₚ elements s
}.

(** An example of an iteration order. *)
Definition elements_iteration : SetIteration :=
  {| set_iter := elements;
     set_iter_members := fun s => Permutation_refl (elements s) |}.

(** The value of an [int] instance. *)
Definition int_value (v : pyval) : Z :=
  match v with PyInt z => z | PyBool b => Z.b2z b | _ => 0%Z end.

(** [mode] is a string, as the docstring of [to_mask] has it. *)
Definition PixelRegion__validate_mode `{SetIteration} (mode : string) (subpixels : pyval)
    : result unit :=
  if negb (bool_decide (mode ∈ VALID_MASK_MODES)) then
    inl (Raise ValueError "Invalid mask mode: {0} (should be one of {1})"
           [PyStr mode; PyStr (String.concat "/" (set_iter VALID_MASK_MODES))])
  else if String.eqb mode "subpixels" then
    if negb (isinstance_int subpixels) || (int_value subpixels <=? 0)%Z then
      inl (Raise ValueError "Invalid subpixels value: {0} (should be a strictly positive integer)"
             [subpixels])
    else inr tt
  else inr tt.

(** ** Containment *)

(** The methods the classes of this file leave to their subclasses and to
    [pixcoord.py]: [PixelRegion.contains] and [SkyRegion.to_pixel] are
    abstract, [PixCoord.from_sky] is the coordinate transform.  They run
    in an arbitrary world [World] and may raise. *)
Class RegionMethods (World WCS : Type) := {
  PixelRegion_contains : Region -> PixCoord -> M World pyval;
  SkyRegion_to_pixel : Region -> WCS -> M World Region;
  PixCoord_from_sky : SkyCoord -> WCS -> M World PixCoord
}.

Definition PixelRegion___contains__ `{RegionMethods World WCS}
    (self : Region) (coord : PixCoord) : M World pyval :=
  if negb (PixCoord_isscalar coord) then
    raise (Raise ValueError "coord must be scalar. coord={}" [PyPixCoord coord])
  else PixelRegion_contains self coord.

Definition SkyRegion_contains `{RegionMethods World WCS}
    (self : Region) (skycoord : SkyCoord) (wcs : WCS) : M World pyval :=
  let* pixel_region := SkyRegion_to_pixel self wcs in
  let* pixcoord := PixCoord_from_sky skycoord wcs in
  PixelRegion_contains pixel_region pixcoord.

(** The right-hand side of the containment invariant as the specification
    words it: [s.to_pixel(w).contains(pixel_equivalent_of(p, w))]. *)
Definition contains_via_pixel `{RegionMethods World WCS}
    (s : Region) (p : SkyCoord) (w : WCS) : M World pyval :=
  fun st0 =>
    match SkyRegion_to_pixel s w st0 with
    | (inl e, st1) => (inl e, st1)
    | (inr pixel_region, st1) =>
        match PixCoord_from_sky p w st1 with
        | (inl e, st2) => (inl e, st2)
        | (inr q, st2) => PixelRegion_contains pixel_region q st2
        end
    end.

(** An example of the collaborators: the only shape is the closed unit
    disc, tested point by point on arrays; the transform reads right
    ascension and declination as x and y; and the world counts the calls
    of [to_pixel]. *)
Definition in_unit_disc (x y : Q) : bool := Qle_bool (x * x + y * y) 1.

Definition unit_disc_contains (p : PixCoord) : pyval :=
  match p with
  | PixCoord_scalar x y => PyBool (in_unit_disc x y)
  | PixCoord_array xs ys =>
      PyNdarray (mk_ndarray (shape xs)
                   (zip_with (fun x y => if in_unit_disc x y then 1%Q else 0%Q)
                      (data xs) (data ys)))
  end.

Definition plate_from_sky (c : SkyCoord) : PixCoord :=
  match sky_shape c, ra c, dec c with
  | [], [x], [y] => PixCoord_scalar x y
  | _, _, _ => PixCoord_array (mk_ndarray (sky_shape c) (ra c)) (mk_ndarray (sky_shape c) (dec c))
  end.

Definition unit_disc_methods : RegionMethods nat unit :=
  {| PixelRegion_contains := fun _ p calls => (inr (unit_disc_contains p), calls);
     SkyRegion_to_pixel := fun _ _ calls => (inr (Shape Pixel 1%positive), S calls);
     PixCoord_from_sky := fun c _ calls => (inr (plate_from_sky c), calls) |}.

(** ** The metadata dictionaries *)

(** [dict.get(key, default)]. *)
Definition dict_get {V} (d : gmap string V) (key : string) (default : V) : V :=
  match d !! key with Some v => v | None => default end.

(** [dict.__setitem__] and [dict.__getitem__] of the base class. *)
Definition dict___setitem__ (key : string) (value : pyval) : M (gmap string pyval) unit :=
  fun d => (inr tt, <[key := value]> d).

Definition dict___getitem__ (key : string) : M (gmap string pyval) pyval :=
  fun d => match d !! key with
           | Some v => (inr v, d)
           | None => (inl (Raise KeyError "{}" [PyStr key]), d)
           end.

Definition RegionMeta_valid_keys : list string :=
  ["label"; "symbol"; "include"; "frame"; "range"; "veltype";
   "restfreq"; "tag"; "comment"; "coord"; "line"; "name";
   "select"; "highlite"; "fixed"; "edit"; "move"; "rotate";
   "delete"; "source"; "background"; "corr"; "type"].

Definition RegionMeta_key_mapping : gmap string string :=
  <["point" := "symbol"]> (<["text" := "label"]> ∅).

Definition RegionMeta___setitem__ (key : string) (value : pyval) : M (gmap string pyval) unit :=
  let key := dict_get RegionMeta_key_mapping key key in
  if bool_decide (key ∈ RegionMeta_valid_keys) then
    dict___setitem__ key value
  else raise (Raise KeyError "{} is not a valid meta key for region." [PyStr key]).

Definition RegionMeta___getitem__ (item : string) : M (gmap string pyval) pyval :=
  let item := dict_get RegionMeta_key_mapping item item in
  dict___getitem__ item.

Definition RegionVisual_valid_keys : list string :=
  ["color"; "dash"; "font"; "dashlist"; "symsize"; "symthick";
   "fontsize"; "fontstyle"; "usetex"; "labelpos"; "labeloff";
   "linewidth"; "linestyle"; "fill"; "line"].

Definition RegionVisual_key_mapping : gmap string string :=
  <["width" := "linewidth"]> ∅.

Definition RegionVisual___setitem__ (key : string) (value : pyval) : M (gmap string pyval) unit :=
  let key := dict_get RegionVisual_key_mapping key key in
  if bool_decide (key ∈ RegionVisual_valid_keys) then
    dict___setitem__ key value
  else raise (Raise KeyError "{} is not a valid visual meta key for region." [PyStr key]).

Definition RegionVisual___getitem__ (item : string) : M (gmap string pyval) pyval :=
  let item := dict_get RegionVisual_key_mapping item item in
  dict___getitem__ item.

(** What a key-restricted dictionary with aliases promises, for its
    [__setitem__] and [__getitem__], its alias table, its vocabulary and
    the template of its error message: the key is resolved through the
    alias table first; a resolved key of the vocabulary is written, any
    other raises [KeyError] naming the key and leaves the dictionary as it
    was; a write or a read under a key and under its resolution are the
    same. *)
Definition restricted_dict_contract
    (setitem : string -> pyval -> M (gmap string pyval) unit)
    (getitem : string -> M (gmap string pyval) pyval)
    (mapping : gmap string string) (valid : list string) (msg : string) : Prop :=
  forall (key : string) (value : pyval) (d : gmap string pyval),
    let k := dict_get mapping key key in
    (k ∈ valid -> setitem key value d = (inr tt, <[k := value]> d))
    /\ (k ∉ valid ->
          setitem key value d = (inl (Raise KeyError msg [PyStr key]), d))
    /\ getitem key d = dict___getitem__ k d
    /\ setitem key value d = setitem k value d
    /\ getitem key d = getitem k d.

(** ** Further code of the file *)

(** *** The quantity-length annulus descriptors

    The comparison of two quantities is astropy's: it converts units and
    may raise.  It is a parameter of the model. *)
Class QuantityCompare := {
  quantity_lt : pyval -> pyval -> result bool;
  quantity_gt : pyval -> pyval -> result bool
}.

Definition AnnulusInnerQuantityLength___get__ (_name : string) (instance : annulus) : M heap pyval :=
  let reg1 := region1 instance in
  getattr reg1 _name.

Definition AnnulusInnerQuantityLength___set__ `{QuantityCompare} (_name : string)
    (instance : annulus) (value : pyval) : M heap unit :=
  let reg1 := region1 instance in
  let reg2 := region2 instance in
  if isinstance_Quantity value && isscalar value then
    let* outer := getattr reg2 _name in
    let* too_large := lift (quantity_lt outer value) in
    if (too_large : bool)
    then raise (Raise ValueError "The inner {0} must be less than the outer {0}" [PyStr _name])
    else setattr reg1 _name value
  else raise (Raise ValueError "The inner {} must be a scalar astropy Quantity object"
                [PyStr _name]).

Definition AnnulusOuterQuantityLength___get__ (_name : string) (instance : annulus) : M heap pyval :=
  let reg2 := region2 instance in
  getattr reg2 _name.

Definition AnnulusOuterQuantityLength___set__ `{QuantityCompare} (_name : string)
    (instance : annulus) (value : pyval) : M heap unit :=
  let reg1 := region1 instance in
  let reg2 := region2 instance in
  if isinstance_Quantity value && isscalar value then
    let* inner := getattr reg1 _name in
    let* too_small := lift (quantity_gt inner value) in
    if (too_small : bool)
    then raise (Raise ValueError "The inner {0} must be less than the outer {0}" [PyStr _name])
    else setattr reg2 _name value
  else raise (Raise ValueError "The outer {} must be a scalar astropy Quantity object"
                [PyStr _name]).

(** The outcome of a write [m] of [value] to the attribute [n] of
    [target]: it raises and the heap is the one before, or it returns and
    the attribute holds [value] while every other attribute of every
    object reads as before. *)
Definition writes_only (m : M heap unit) (target : objid) (n : string) (value : pyval)
    (h : heap) : Prop :=
  (exists e, m h = (inl e, h))
  \/ (exists h', m h = (inr tt, h')
                 /\ attr_of h' target n = inr value
                 /\ forall o n', ~ (n' = n /\ o = target) -> attr_of h' o n' = attr_of h o n').

(** *** Sequences of writes to the lengths of an annulus *)

Inductive length_write := SetInner (value : pyval) | SetOuter (value : pyval).

Definition length_write_value (op : length_write) : pyval :=
  match op with SetInner v | SetOuter v => v end.

(** A value whose comparison with a Python number is Python's own, hence
    by value: anything but nan, an infinity and a numpy scalar. *)
Definition compares_by_value (v : pyval) : bool :=
  match v with
  | PyNaN | PyInf _ | PyNumpy _ _ => false
  | _ => true
  end.

(** A caller that performs the writes in order and catches what they raise. *)
Fixpoint write_lengths `{NumpyCompare} (_name : string) (instance : annulus)
    (ops : list length_write) (h : heap) : heap :=
  match ops with
  | [] => h
  | SetInner v :: rest =>
      write_lengths _name instance rest
        (snd (AnnulusInnerScalarLength___set__ _name instance v h))
  | SetOuter v :: rest =>
      write_lengths _name instance rest
        (snd (AnnulusOuterScalarLength___set__ _name instance v h))
  end.

(** The two operands hold Python numbers (bool, int or finite float) for
    the field [n], declared as a [ScalarLength], and the inner one is not
    above the outer one. *)
Definition lengths_in_order (n : string) (instance : annulus) (h : heap) : Prop :=
  exists (d : RegionAttr) (inner outer : Q),
    class_attrs h !! n = Some d /\ attr_cls d = ScalarLength
    /\ as_number (RegionAttr___get__ d (region1 instance)) = Some inner
    /\ as_number (RegionAttr___get__ d (region2 instance)) = Some outer
    /\ (inner <= outer)%Q.

(** *** Sequences of writes to the shared attributes of an annulus *)

Inductive shared_write :=
| SetCenterPix (value : pyval)
| SetCenterSky (value : pyval)
| SetAngle (value : pyval).

Definition shared_write_run (instance : annulus) (op : shared_write) : M heap unit :=
  match op with
  | SetCenterPix v => AnnulusCenterPix___set__ instance v
  | SetCenterSky v => AnnulusCenterSky___set__ instance v
  | SetAngle v => AnnulusAngle___set__ instance v
  end.

(** A caller that performs the writes in order and catches what they raise. *)
Fixpoint write_shared (instance : annulus) (ops : list shared_write) (h : heap) : heap :=
  match ops with
  | [] => h
  | op :: rest => write_shared instance rest (snd (shared_write_run instance op h))
  end.

(** The two operands read the same for [center] and for [angle]. *)
Definition operands_agree (instance : annulus) (h : heap) : Prop :=
  attr_of h (region1 instance) "center" = attr_of h (region2 instance) "center"
  /\ attr_of h (region1 instance) "angle" = attr_of h (region2 instance) "angle".

(** *** Sequences of writes to a metadata dictionary *)

Fixpoint store_all (setitem : string -> pyval -> M (gmap string pyval) unit)
    (ops : list (string * pyval)) (d : gmap string pyval) : gmap string pyval :=
  match ops with
  | [] => d
  | (key, value) :: rest => store_all setitem rest (snd (setitem key value d))
  end.

(** The last value of [ops] written under a key that resolves to [k],
    when [k] is in the vocabulary. *)
Fixpoint last_written (mapping : gmap string string) (valid : list string) (k : string)
    (ops : list (string * pyval)) : option pyval :=
  match ops with
  | [] => None
  | (key, v) :: rest =>
      match last_written mapping valid k rest with
      | Some w => Some w
      | None =>
          if bool_decide (dict_get mapping key key = k) && bool_decide (k ∈ valid)
          then Some v else None
      end
  end.

(** *** Printing a region

    [repr] and [str] of the attribute values are the interpreter's and the
    value classes'; they are parameters of the model. *)
Class Formatting := {
  py_repr : pyval -> string;
  py_str : pyval -> string
}.

Definition underscore : Ascii.ascii := Ascii.ascii_of_nat 95.
Definition space : Ascii.ascii := Ascii.ascii_of_nat 32.

(** [s.replace(old, new)] for one-character [old] and [new]. *)
Fixpoint str_replace (old new : Ascii.ascii) (s : string) : string :=
  match s with
  | EmptyString => EmptyString
  | String c rest =>
      String (if Ascii.eqb c old then new else c) (str_replace old new rest)
  end.

Definition hasattr (obj : objid) (name : string) : M heap bool :=
  let* h := get_state in
  match attr_of h obj name with
  | inr _ => ret true
  | inl _ => ret false
  end.

(** The loop of [__repr__] over [_repr_params]. *)
Fixpoint repr_loop `{Formatting} (self : objid) (keys : list string) (params : list string)
    : M heap (list string) :=
  match keys with
  | [] => ret params
  | key :: rest =>
      let* v := getattr self key in
      repr_loop self rest
        (app params [str_replace underscore space key ++ "=" ++ py_str v])
  end.

Definition Region___repr__ `{Formatting} (class_name : string)
    (_repr_params : option (list string)) (self : objid) : M heap string :=
  let* has_center := hasattr self "center" in
  let* params :=
    (if (has_center : bool)
     then let* center := getattr self "center" in ret [py_repr center]
     else ret []) in
  let* params :=
    match _repr_params with
    | Some keys => repr_loop self keys params
    | None => ret params
    end in
  let params := String.concat ", " params in
  ret ("<" ++ class_name ++ "(" ++ params ++ ")>").

(** The list comprehension of [__str__] over [_repr_params]. *)
Fixpoint str_params (self : objid) (keys : list string) : M heap (list (string * pyval)) :=
  match keys with
  | [] => ret []
  | x :: rest =>
      let* v := getattr self x in
      let* others := str_params self rest in
      ret ((str_replace underscore space x, v) :: others)
  end.

Definition newline : string := String (Ascii.ascii_of_nat 10) EmptyString.

Definition Region___str__ `{Formatting} (class_name : string)
    (_repr_params : option (list string)) (self : objid) : M heap string :=
  let cls_info := [("Region", PyStr class_name)] in
  let* has_center := hasattr self "center" in
  let* cls_info :=
    (if (has_center : bool)
     then let* center := getattr self "center" in ret (app cls_info [("center", center)])
     else ret cls_info) in
  let* cls_info :=
    match _repr_params with
    | Some keys => let* params_value := str_params self keys in ret (app cls_info params_value)
    | None => ret cls_info
    end in
  let fmt := map (fun kv : string * pyval => fst kv ++ ": " ++ py_str (snd kv)) cls_info in
  ret (String.concat newline fmt).

(** The outcome of a computation [m] that only reads the heap: the heap
    is unchanged, [m] returns exactly when [P] holds, and what it raises
    otherwise is an [AttributeError]. *)
Definition reads_and_returns_iff {A} (m : M heap A) (h : heap) (P : Prop) : Prop :=
  exists r, m h = (r, h)
            /\ ((exists a, r = inr a) <-> P)
            /\ (forall e, r = inl e -> exn_cls e = AttributeError).

(** Every name of [keys] is an attribute of [self]. *)
Definition has_attributes (h : heap) (self : objid) (keys : list string) : Prop :=
  forall key, key ∈ keys -> exists v, attr_of h self key = inr v.

(** * Properties *)

(** ** The constrained attribute *)

Ltac run_M :=
  unfold bind, ret, raise, lift, get_state, put_state, rbind; simpl.

Lemma RegionAttr_set_rejected (d : RegionAttr) (i : objid) (v : pyval) :
  attr_accepts (attr_cls d) v = false ->
  RegionAttr___set__ i v d
  = (inl (Raise ValueError (attr_message (attr_cls d)) [PyStr (_name d)]), d).
Proof.
  intros Hv. unfold RegionAttr___set__, _validate. run_M. rewrite Hv. reflexivity.
Qed.

Lemma RegionAttr_set_accepted (d : RegionAttr) (i : objid) (v : pyval) :
  attr_accepts (attr_cls d) v = true ->
  RegionAttr___set__ i v d
  = (inr tt, mk_RegionAttr (attr_cls d) (_name d) (<[i := v]> (_values d))).
Proof.
  intros Hv. unfold RegionAttr___set__, _validate. run_M. rewrite Hv. reflexivity.
Qed.

Lemma RegionAttr_set_keeps_class (d : RegionAttr) (i : objid) (v : pyval) :
  attr_cls (snd (RegionAttr___set__ i v d)) = attr_cls d.
Proof.
  destruct (attr_accepts (attr_cls d) v) eqn:Hv.
  - rewrite RegionAttr_set_accepted by exact Hv. reflexivity.
  - rewrite RegionAttr_set_rejected by exact Hv. reflexivity.
Qed.

Lemma RegionAttr_get_insert (d : RegionAttr) (i j : objid) (v : pyval) :
  RegionAttr___get__ (mk_RegionAttr (attr_cls d) (_name d) (<[i := v]> (_values d))) j
  = if bool_decide (i = j) then v else RegionAttr___get__ d j.
Proof.
  unfold RegionAttr___get__. simpl. rewrite lookup_insert.
  case_bool_decide; case_decide; simpl; congruence.
Qed.

Lemma assign_all_read (c : attr_class) (i : objid) (ops : list (objid * pyval)) :
  forall d : RegionAttr, attr_cls d = c ->
    RegionAttr___get__ (assign_all ops d) i
    = match last_accepted c i ops with
      | Some v => v
      | None => RegionAttr___get__ d i
      end.
Proof.
  induction ops as [|[j v] rest IH]; intros d Hd; simpl.
  - reflexivity.
  - rewrite IH by (rewrite RegionAttr_set_keeps_class; exact Hd).
    destruct (last_accepted c i rest) as [w|]; [reflexivity|].
    subst c. destruct (attr_accepts (attr_cls d) v) eqn:Hv.
    + rewrite RegionAttr_set_accepted by exact Hv. simpl snd.
      rewrite RegionAttr_get_insert. rewrite andb_true_r.
      case_bool_decide; reflexivity.
    + rewrite RegionAttr_set_rejected by exact Hv. rewrite andb_false_r. reflexivity.
Qed.

(** C6: for each of the constrained-attribute classes, an assignment whose
    value fails the class's predicate raises a [ValueError] whose message
    is the class's template filled with the field name, and leaves the
    descriptor (hence every stored value) as it was; an assignment whose
    value passes stores it for that instance and for no other; and after
    any sequence of assignments a read returns the last value that was
    stored for the instance, or [None] when there was none. *)
Theorem constrained_attribute_contract (c : attr_class) (name : string) :
  (forall (d : RegionAttr) (i : objid) (v : pyval),
      attr_cls d = c -> _name d = name -> attr_accepts c v = false ->
      exists e, RegionAttr___set__ i v d = (inl e, d)
                /\ exn_cls e = ValueError
                /\ exn_format e = attr_message c
                /\ exn_args e = [PyStr name])
  /\ (forall (d : RegionAttr) (i : objid) (v : pyval),
      attr_cls d = c -> attr_accepts c v = true ->
      exists d', RegionAttr___set__ i v d = (inr tt, d')
                 /\ RegionAttr___get__ d' i = v
                 /\ forall j, j <> i -> RegionAttr___get__ d' j = RegionAttr___get__ d j)
  /\ (forall (ops : list (objid * pyval)) (i : objid),
      RegionAttr___get__ (assign_all ops (RegionAttr___init__ c name)) i
      = default PyNone (last_accepted c i ops)).
Proof.
  split; [|split].
  - intros d i v Hc Hn Hv. subst c name. eexists. split.
    + apply RegionAttr_set_rejected. exact Hv.
    + simpl. auto.
  - intros d i v Hc Hv. subst c. eexists. split; [|split].
    + apply RegionAttr_set_accepted. exact Hv.
    + rewrite RegionAttr_get_insert. rewrite bool_decide_eq_true_2; reflexivity.
    + intros j Hj. rewrite RegionAttr_get_insert.
      rewrite bool_decide_eq_false_2; [reflexivity | congruence].
  - intros ops i. rewrite (assign_all_read c i ops) by reflexivity.
    destruct (last_accepted c i ops); reflexivity.
Qed.

Lemma constrained_attribute_contract_witness :
  (exists e, RegionAttr___set__ 1%positive
               (PyPixCoord (PixCoord_array (mk_ndarray [2%nat] [1%Q; 2%Q]) (mk_ndarray [2%nat] [3%Q; 4%Q])))
               (RegionAttr___init__ ScalarPix "center")
             = (inl e, RegionAttr___init__ ScalarPix "center")
             /\ exn_cls e = ValueError
             /\ exn_format e = attr_message ScalarPix
             /\ exn_args e = [PyStr "center"])
  /\ (exists d', RegionAttr___set__ 1%positive (PyPixCoord (PixCoord_scalar 1 2))
                   (RegionAttr___init__ ScalarPix "center") = (inr tt, d')
                 /\ RegionAttr___get__ d' 1%positive = PyPixCoord (PixCoord_scalar 1 2)
                 /\ forall j, j <> 1%positive ->
                      RegionAttr___get__ d' j
                      = RegionAttr___get__ (RegionAttr___init__ ScalarPix "center") j).
Proof.
  split.
  - apply (proj1 (constrained_attribute_contract ScalarPix "center")); reflexivity.
  - apply (proj1 (proj2 (constrained_attribute_contract ScalarPix "center"))); reflexivity.
Defined.

(** ** Attribute access *)

Lemma Qltb_lt (x y : Q) : Qltb x y = true <-> (x < y)%Q.
Proof.
  unfold Qltb. rewrite negb_true_iff. split.
  - intros H. apply Qnot_le_lt. intros Hle.
    apply Qle_bool_iff in Hle. congruence.
  - intros H. destruct (Qle_bool y x) eqn:E; [|reflexivity].
    apply Qle_bool_iff in E. exfalso. exact (Qlt_not_le _ _ H E).
Qed.

Lemma getattr_pure (h : heap) (o : objid) (n : string) :
  getattr o n h = (attr_of h o n, h).
Proof.
  unfold attr_of, getattr. run_M.
  destruct (class_attrs h !! n); [reflexivity|].
  destruct (inst_dict h !! (o, n)); reflexivity.
Qed.

Lemma attr_of_eq (h : heap) (o : objid) (n : string) :
  attr_of h o n
  = match class_attrs h !! n with
    | Some d => inr (RegionAttr___get__ d o)
    | None =>
        match inst_dict h !! (o, n) with
        | Some v => inr v
        | None => inl (Raise AttributeError "object has no attribute {}" [PyStr n])
        end
    end.
Proof.
  unfold attr_of, getattr. run_M.
  destruct (class_attrs h !! n); [reflexivity|].
  destruct (inst_dict h !! (o, n)); reflexivity.
Qed.

Lemma attr_of_descriptor (h : heap) (o : objid) (n : string) (d : RegionAttr) :
  class_attrs h !! n = Some d -> attr_of h o n = inr (RegionAttr___get__ d o).
Proof. intros Hd. rewrite attr_of_eq, Hd. reflexivity. Qed.

Lemma setattr_rejected (h : heap) (o : objid) (n : string) (v : pyval) (d : RegionAttr) :
  class_attrs h !! n = Some d -> attr_accepts (attr_cls d) v = false ->
  setattr o n v h = (inl (Raise ValueError (attr_message (attr_cls d)) [PyStr (_name d)]), h).
Proof.
  intros Hd Hv. unfold setattr. run_M. rewrite Hd.
  rewrite RegionAttr_set_rejected by exact Hv. run_M.
  rewrite insert_id by exact Hd. destruct h; reflexivity.
Qed.

Lemma setattr_accepted (h : heap) (o : objid) (n : string) (v : pyval) (d : RegionAttr) :
  class_attrs h !! n = Some d -> attr_accepts (attr_cls d) v = true ->
  setattr o n v h
  = (inr tt, mk_heap (<[n := stored d o v]> (class_attrs h)) (inst_dict h)).
Proof.
  intros Hd Hv. unfold setattr. run_M. rewrite Hd.
  rewrite RegionAttr_set_accepted by exact Hv. reflexivity.
Qed.

Lemma setattr_plain (h : heap) (o : objid) (n : string) (v : pyval) :
  class_attrs h !! n = None ->
  setattr o n v h = (inr tt, mk_heap (class_attrs h) (<[(o, n) := v]> (inst_dict h))).
Proof. intros Hd. unfold setattr. run_M. rewrite Hd. reflexivity. Qed.

Lemma attr_of_stored (h : heap) (o o' : objid) (n n' : string) (v : pyval) (d : RegionAttr) :
  class_attrs h !! n = Some d ->
  attr_of (mk_heap (<[n := stored d o v]> (class_attrs h)) (inst_dict h)) o' n'
  = if bool_decide (n = n' /\ o = o') then inr v else attr_of h o' n'.
Proof.
  intros Hd. rewrite !attr_of_eq. simpl. rewrite lookup_insert.
  case_decide as Hn.
  - subst n'. rewrite Hd. unfold stored. rewrite RegionAttr_get_insert.
    repeat case_bool_decide; try reflexivity; intuition congruence.
  - rewrite bool_decide_eq_false_2 by intuition congruence. reflexivity.
Qed.

Lemma attr_of_plain (h : heap) (o o' : objid) (n n' : string) (v : pyval) :
  class_attrs h !! n = None ->
  attr_of (mk_heap (class_attrs h) (<[(o, n) := v]> (inst_dict h))) o' n'
  = if bool_decide (n = n' /\ o = o') then inr v else attr_of h o' n'.
Proof.
  intros Hd. rewrite !attr_of_eq. simpl.
  destruct (class_attrs h !! n') as [d'|] eqn:Hn'.
  - rewrite bool_decide_eq_false_2 by (intros [E _]; congruence). reflexivity.
  - rewrite lookup_insert. case_decide as Hk.
    + injection Hk as -> ->. rewrite bool_decide_eq_true_2 by auto. reflexivity.
    + rewrite bool_decide_eq_false_2 by (intros [E1 E2]; congruence). reflexivity.
Qed.

(** Writing one value to the same attribute of two operands of one class:
    either the first write is refused and nothing has changed, or both
    operands hold the value. *)
Lemma linked_write (h : heap) (r1 r2 : objid) (n : string) (v : pyval) :
  (exists d, class_attrs h !! n = Some d /\ attr_accepts (attr_cls d) v = false
             /\ (let* u := setattr r1 n v in setattr r2 n v) h
                = (inl (Raise ValueError (attr_message (attr_cls d)) [PyStr (_name d)]), h))
  \/ (exists h', (let* u := setattr r1 n v in setattr r2 n v) h = (inr tt, h')
                 /\ attr_of h' r1 n = inr v /\ attr_of h' r2 n = inr v
                 /\ (match class_attrs h !! n with
                     | Some d => attr_accepts (attr_cls d) v = true
                     | None => True
                     end)
                 /\ forall o n', ~ (n' = n /\ (o = r1 \/ o = r2)) ->
                      attr_of h' o n' = attr_of h o n').
Proof.
  destruct (class_attrs h !! n) as [d|] eqn:Hd.
  - destruct (attr_accepts (attr_cls d) v) eqn:Hv.
    + right. unfold bind. rewrite (setattr_accepted h r1 n v d Hd Hv).
      set (h1 := mk_heap _ _).
      assert (Hd1 : class_attrs h1 !! n = Some (stored d r1 v))
        by (subst h1; simpl; apply lookup_insert_eq).
      rewrite (setattr_accepted h1 r2 n v _ Hd1 Hv).
      eexists. split; [reflexivity|].
      repeat split.
      * rewrite (attr_of_stored h1 r2 r1 n n v _ Hd1).
        case_bool_decide; [reflexivity|].
        subst h1. rewrite (attr_of_stored h r1 r1 n n v _ Hd).
        rewrite bool_decide_eq_true_2 by auto. reflexivity.
      * rewrite (attr_of_stored h1 r2 r2 n n v _ Hd1).
        rewrite bool_decide_eq_true_2 by auto. reflexivity.
      * intros o n' Hne.
        rewrite (attr_of_stored h1 r2 o n n' v _ Hd1).
        rewrite bool_decide_eq_false_2 by (intros [E E']; apply Hne; subst; auto).
        subst h1. rewrite (attr_of_stored h r1 o n n' v _ Hd).
        rewrite bool_decide_eq_false_2 by (intros [E E']; apply Hne; subst; auto). reflexivity.
    + left. exists d. repeat split; try assumption.
      unfold bind. rewrite (setattr_rejected h r1 n v d Hd Hv). reflexivity.
  - right. unfold bind. rewrite (setattr_plain h r1 n v Hd).
    set (h1 := mk_heap _ _).
    assert (Hd1 : class_attrs h1 !! n = None) by (subst h1; exact Hd).
    rewrite (setattr_plain h1 r2 n v Hd1).
    eexists. split; [reflexivity|].
    repeat split.
    + rewrite (attr_of_plain h1 r2 r1 n n v Hd1).
      case_bool_decide; [reflexivity|].
      subst h1. rewrite (attr_of_plain h r1 r1 n n v Hd).
      rewrite bool_decide_eq_true_2 by auto. reflexivity.
    + rewrite (attr_of_plain h1 r2 r2 n n v Hd1).
      rewrite bool_decide_eq_true_2 by auto. reflexivity.
    + intros o n' Hne.
      rewrite (attr_of_plain h1 r2 o n n' v Hd1).
      rewrite bool_decide_eq_false_2 by (intros [E E']; apply Hne; subst; auto).
      subst h1. rewrite (attr_of_plain h r1 o n n' v Hd).
      rewrite bool_decide_eq_false_2 by (intros [E E']; apply Hne; subst; auto). reflexivity.
Qed.

(** ** The annulus descriptors *)

Lemma shared_write_contract (c : attr_class) (n msg : string)
    (set : annulus -> pyval -> M heap unit) (get : annulus -> M heap pyval) :
  (forall instance value h,
      set instance value h
      = if attr_accepts c value
        then (let* u := setattr (region1 instance) n value in
              setattr (region2 instance) n value) h
        else (inl (Raise ValueError msg []), h)) ->
  (forall instance h, get instance h = getattr (region1 instance) n h) ->
  shared_attribute_contract set get n c.
Proof.
  intros Hset Hget h instance value.
  pose proof (linked_write h (region1 instance) (region2 instance) n value) as Hw.
  repeat split.
  - intros Hv. rewrite Hset, Hv. eexists. split; reflexivity.
  - intros Hv [d [Hd Hc]]. rewrite Hset, Hv.
    destruct Hw as [[d' [Hd' [Hrej _]]] | [h' [Hrun [H1 [H2 _]]]]].
    + congruence.
    + exists h'. auto.
  - rewrite Hset. destruct (attr_accepts c value).
    + destruct Hw as [[d' [_ [_ Hrun]]] | [h' [Hrun [H1 [H2 _]]]]].
      * left. eexists. exact Hrun.
      * right. exists h'. auto.
    + left. eexists. reflexivity.
  - rewrite Hget. apply getattr_pure.
Qed.

(** C7: the center descriptors (pixel and sky) and the angle descriptor of
    an annulus-like compound.  A value that is not a scalar of the expected
    type raises [ValueError] and the heap is the one before the call; a
    valid value, on operands that declare the field with the matching
    constrained attribute, is afterwards the value of the field on both
    [region1] and [region2]; whatever the operands' class, a call either
    raises with nothing changed or leaves the value on both operands; a
    read returns [region1]'s value. *)
Theorem annulus_shared_center_and_angle :
  shared_attribute_contract AnnulusCenterPix___set__ AnnulusCenterPix___get__ "center" ScalarPix
  /\ shared_attribute_contract AnnulusCenterSky___set__ AnnulusCenterSky___get__ "center" ScalarSky
  /\ shared_attribute_contract AnnulusAngle___set__ AnnulusAngle___get__ "angle" QuantityLength.
Proof.
  split; [|split].
  - apply shared_write_contract with (msg := "The center must be a 0D PixCoord object").
    + intros instance value h. unfold AnnulusCenterPix___set__. simpl attr_accepts.
      destruct (isinstance_PixCoord value && isscalar value); reflexivity.
    + reflexivity.
  - apply shared_write_contract with (msg := "The center must be a 0D SkyCoord object").
    + intros instance value h. unfold AnnulusCenterSky___set__. simpl attr_accepts.
      destruct (isinstance_SkyCoord value && isscalar value); reflexivity.
    + reflexivity.
  - apply shared_write_contract with (msg := "The angle must be a scalar astropy quantity object").
    + intros instance value h. unfold AnnulusAngle___set__. simpl attr_accepts.
      destruct (isinstance_Quantity value && isscalar value); reflexivity.
    + reflexivity.
Qed.

Lemma annulus_shared_center_and_angle_witness :
  exists h',
    AnnulusCenterPix___set__ (mk_annulus 1%positive 2%positive) (PyPixCoord (PixCoord_scalar 10 20))
      (circle_operands (PyFloat 3) (PyFloat 5)) = (inr tt, h')
    /\ attr_of h' 1%positive "center" = inr (PyPixCoord (PixCoord_scalar 10 20))
    /\ attr_of h' 2%positive "center" = inr (PyPixCoord (PixCoord_scalar 10 20)).
Proof.
  apply (proj1 (proj2 (proj1 annulus_shared_center_and_angle
                         (circle_operands (PyFloat 3) (PyFloat 5)) (mk_annulus 1%positive 2%positive)
                         (PyPixCoord (PixCoord_scalar 10 20))))).
  - reflexivity.
  - exists (RegionAttr___init__ ScalarPix "center"). split; reflexivity.
Defined.

Lemma as_number_isscalar (v : pyval) (q : Q) : as_number v = Some q -> np_isscalar v = true.
Proof. destruct v; simpl; congruence. Qed.

Lemma as_number_python (v : pyval) (q : Q) :
  as_number v = Some q -> is_numpy v = false /\ python_number v = Some (Finite q).
Proof.
  intros Hv. unfold python_number. rewrite Hv. split; [|reflexivity].
  destruct v; simpl in *; congruence.
Qed.

Lemma py_lt_numbers {Np : NumpyCompare} (a b : pyval) (x y : Q) :
  as_number a = Some x -> as_number b = Some y -> py_lt a b = inr (Qltb x y).
Proof.
  intros Ha Hb. destruct (as_number_python a x Ha) as [Na Pa].
  destruct (as_number_python b y Hb) as [Nb Pb].
  unfold py_lt. rewrite Na, Nb, Pa, Pb. reflexivity.
Qed.

Lemma py_gt_numbers {Np : NumpyCompare} (a b : pyval) (x y : Q) :
  as_number a = Some x -> as_number b = Some y -> py_gt a b = inr (Qltb y x).
Proof.
  intros Ha Hb. destruct (as_number_python a x Ha) as [Na Pa].
  destruct (as_number_python b y Hb) as [Nb Pb].
  unfold py_gt. rewrite Na, Nb, Pa, Pb. reflexivity.
Qed.

(** The inner setter on Python numbers: the only values refused are
    those strictly greater than the outer length. *)
Lemma AnnulusInnerScalarLength_set_numeric {Np : NumpyCompare} (h : heap) (n : string)
    (instance : annulus)
    (value : pyval) (d : RegionAttr) (outer q : Q) :
  class_attrs h !! n = Some d -> attr_cls d = ScalarLength ->
  as_number (RegionAttr___get__ d (region2 instance)) = Some outer ->
  as_number value = Some q ->
  AnnulusInnerScalarLength___set__ n instance value h
  = if Qltb outer q
    then (inl (Raise ValueError "The inner {0} must be less than the outer {0}" [PyStr n]), h)
    else (inr tt, mk_heap (<[n := stored d (region1 instance) value]> (class_attrs h))
                    (inst_dict h)).
Proof.
  intros Hd Hc Ho Hq. unfold AnnulusInnerScalarLength___set__.
  rewrite (as_number_isscalar _ _ Hq). cbv zeta. unfold bind at 1.
  rewrite getattr_pure, (attr_of_descriptor _ _ _ _ Hd).
  unfold bind, lift. rewrite (py_lt_numbers _ _ _ _ Ho Hq).
  destruct (Qltb outer q); [reflexivity|].
  apply setattr_accepted; [exact Hd|]. rewrite Hc. exact (as_number_isscalar _ _ Hq).
Qed.

(** The outer setter on Python numbers: the only values refused are
    those strictly smaller than the inner length. *)
Lemma AnnulusOuterScalarLength_set_numeric {Np : NumpyCompare} (h : heap) (n : string)
    (instance : annulus)
    (value : pyval) (d : RegionAttr) (inner q : Q) :
  class_attrs h !! n = Some d -> attr_cls d = ScalarLength ->
  as_number (RegionAttr___get__ d (region1 instance)) = Some inner ->
  as_number value = Some q ->
  AnnulusOuterScalarLength___set__ n instance value h
  = if Qltb q inner
    then (inl (Raise ValueError "The outer {0} must be greater than the outer {0}" [PyStr n]), h)
    else (inr tt, mk_heap (<[n := stored d (region2 instance) value]> (class_attrs h))
                    (inst_dict h)).
Proof.
  intros Hd Hc Hi Hq. unfold AnnulusOuterScalarLength___set__.
  rewrite (as_number_isscalar _ _ Hq). cbv zeta. unfold bind at 1.
  rewrite getattr_pure, (attr_of_descriptor _ _ _ _ Hd).
  unfold bind, lift. rewrite (py_gt_numbers _ _ _ _ Hi Hq).
  destruct (Qltb q inner); [reflexivity|].
  apply setattr_accepted; [exact Hd|]. rewrite Hc. exact (as_number_isscalar _ _ Hq).
Qed.

(** X11: on an annulus whose operands hold Python numbers (bool, int or
    finite float), assigning to the inner length a Python number strictly
    above the outer one, or to the outer length a Python number strictly
    below the inner one, raises a [ValueError] naming the field, and
    nothing changes.  (Python compares these by value; a numpy scalar is
    compared by numpy, after rounding, and is not covered.) *)
Lemma annulus_length_strictly_out_of_order_rejected {Np : NumpyCompare} (h : heap) (n : string)
    (instance : annulus) (value : pyval) (d : RegionAttr) (inner outer q : Q) :
  class_attrs h !! n = Some d -> attr_cls d = ScalarLength ->
  as_number (RegionAttr___get__ d (region1 instance)) = Some inner ->
  as_number (RegionAttr___get__ d (region2 instance)) = Some outer ->
  as_number value = Some q ->
  ((outer < q)%Q ->
     exists e, AnnulusInnerScalarLength___set__ n instance value h = (inl e, h)
               /\ exn_cls e = ValueError /\ exn_args e = [PyStr n])
  /\ ((q < inner)%Q ->
     exists e, AnnulusOuterScalarLength___set__ n instance value h = (inl e, h)
               /\ exn_cls e = ValueError /\ exn_args e = [PyStr n]).
Proof.
  intros Hd Hc Hi Ho Hq. split; intros Hlt.
  - rewrite (AnnulusInnerScalarLength_set_numeric h n instance value d outer q) by assumption.
    apply Qltb_lt in Hlt. rewrite Hlt. eexists. repeat split.
  - rewrite (AnnulusOuterScalarLength_set_numeric h n instance value d inner q) by assumption.
    apply Qltb_lt in Hlt. rewrite Hlt. eexists. repeat split.
Qed.

(** X12: on an annulus whose operands hold Python numbers (bool, int or
    finite float), assigning to the inner length a Python number not
    above the outer one, or to the outer length a Python number not below
    the inner one (the other bound itself included), returns with the
    number stored on the targeted operand and on nothing else. *)
Lemma annulus_length_in_order_stored {Np : NumpyCompare} (h : heap) (n : string)
    (instance : annulus) (value : pyval) (d : RegionAttr) (inner outer q : Q) :
  class_attrs h !! n = Some d -> attr_cls d = ScalarLength ->
  as_number (RegionAttr___get__ d (region1 instance)) = Some inner ->
  as_number (RegionAttr___get__ d (region2 instance)) = Some outer ->
  as_number value = Some q ->
  ((q <= outer)%Q ->
     exists h', AnnulusInnerScalarLength___set__ n instance value h = (inr tt, h')
                /\ attr_of h' (region1 instance) n = inr value
                /\ forall o n', ~ (n' = n /\ o = region1 instance) ->
                     attr_of h' o n' = attr_of h o n')
  /\ ((inner <= q)%Q ->
     exists h', AnnulusOuterScalarLength___set__ n instance value h = (inr tt, h')
                /\ attr_of h' (region2 instance) n = inr value
                /\ forall o n', ~ (n' = n /\ o = region2 instance) ->
                     attr_of h' o n' = attr_of h o n').
Proof.
  intros Hd Hc Hi Ho Hq. split; intros Hle.
  - rewrite (AnnulusInnerScalarLength_set_numeric h n instance value d outer q) by assumption.
    destruct (Qltb outer q) eqn:E.
    { apply Qltb_lt in E. exfalso. exact (Qlt_not_le _ _ E Hle). }
    eexists. split; [reflexivity|]. split.
    + rewrite (attr_of_stored h _ _ n n value d Hd).
      rewrite bool_decide_eq_true_2 by auto. reflexivity.
    + intros o n' Hne. rewrite (attr_of_stored h _ _ n n' value d Hd).
      rewrite bool_decide_eq_false_2 by (intros [E1 E2]; apply Hne; subst; auto).
      reflexivity.
  - rewrite (AnnulusOuterScalarLength_set_numeric h n instance value d inner q) by assumption.
    destruct (Qltb q inner) eqn:E.
    { apply Qltb_lt in E. exfalso. exact (Qlt_not_le _ _ E Hle). }
    eexists. split; [reflexivity|]. split.
    + rewrite (attr_of_stored h _ _ n n value d Hd).
      rewrite bool_decide_eq_true_2 by auto. reflexivity.
    + intros o n' Hne. rewrite (attr_of_stored h _ _ n n' value d Hd).
      rewrite bool_decide_eq_false_2 by (intros [E1 E2]; apply Hne; subst; auto).
      reflexivity.
Qed.

(** C1: on the annulus with inner radius 3.0 and outer radius 5.0, setting
    the inner radius to 5.0 (the outer) raises nothing and makes the inner
    radius 5.0; setting the outer radius to 3.0 (the inner) raises nothing
    and makes the outer radius 3.0.  In both cases the two radii end up
    equal.  Values strictly out of order (inner 6.0, outer 2.0) are
    refused with the messages "The inner {0} must be less than the outer
    {0}" and "The outer {0} must be greater than the outer {0}", and
    nothing changes. *)
Theorem annulus_length_equal_to_other_bound_is_stored {Np : NumpyCompare} :
  let h := circle_operands (PyFloat 3) (PyFloat 5) in
  let a := mk_annulus 1%positive 2%positive in
  (exists h', AnnulusInnerScalarLength___set__ "radius" a (PyFloat 5) h = (inr tt, h')
              /\ attr_of h' 1%positive "radius" = inr (PyFloat 5)
              /\ attr_of h' 2%positive "radius" = inr (PyFloat 5))
  /\ (exists h', AnnulusOuterScalarLength___set__ "radius" a (PyFloat 3) h = (inr tt, h')
                 /\ attr_of h' 1%positive "radius" = inr (PyFloat 3)
                 /\ attr_of h' 2%positive "radius" = inr (PyFloat 3))
  /\ AnnulusInnerScalarLength___set__ "radius" a (PyFloat 6) h
     = (inl (Raise ValueError "The inner {0} must be less than the outer {0}" [PyStr "radius"]), h)
  /\ AnnulusOuterScalarLength___set__ "radius" a (PyFloat 2) h
     = (inl (Raise ValueError "The outer {0} must be greater than the outer {0}" [PyStr "radius"]), h).
Proof.
  intros h a.
  set (d := mk_RegionAttr ScalarLength "radius"
              (<[1%positive := PyFloat 3]> (<[2%positive := PyFloat 5]> ∅))).
  assert (Hd : class_attrs h !! "radius" = Some d) by reflexivity.
  split; [|split; [|split]].
  - rewrite (AnnulusInnerScalarLength_set_numeric h "radius" a (PyFloat 5) d 5 5)
      by reflexivity.
    eexists. split; [reflexivity|]. split; reflexivity.
  - rewrite (AnnulusOuterScalarLength_set_numeric h "radius" a (PyFloat 3) d 3 3)
      by reflexivity.
    eexists. split; [reflexivity|]. split; reflexivity.
  - rewrite (AnnulusInnerScalarLength_set_numeric h "radius" a (PyFloat 6) d 5 6)
      by reflexivity.
    reflexivity.
  - rewrite (AnnulusOuterScalarLength_set_numeric h "radius" a (PyFloat 2) d 3 2)
      by reflexivity.
    reflexivity.
Qed.

(** ** The region algebra *)

Lemma CompoundPixelRegion_accepts (r1 r2 : pyval) (op : pyoperator) :
  CompoundPixelRegion r1 r2 op
  = if isinstance_PixelRegion r1
    then if isinstance_PixelRegion r2
         then inr (Compound Pixel r1 r2 op)
         else inl (Raise ValueError "The {} must be a PixelRegion object" [PyStr "region2"])
    else inl (Raise ValueError "The {} must be a PixelRegion object" [PyStr "region1"]).
Proof.
  unfold CompoundPixelRegion, _validate, rbind. simpl.
  destruct (isinstance_PixelRegion r1), (isinstance_PixelRegion r2); reflexivity.
Qed.

Lemma CompoundSkyRegion_accepts (r1 r2 : pyval) (op : pyoperator) :
  CompoundSkyRegion r1 r2 op
  = if isinstance_SkyRegion r1
    then if isinstance_SkyRegion r2
         then inr (Compound Sky r1 r2 op)
         else inl (Raise ValueError "The {} must be a SkyRegion object" [PyStr "region2"])
    else inl (Raise ValueError "The {} must be a SkyRegion object" [PyStr "region1"]).
Proof.
  unfold CompoundSkyRegion, _validate, rbind. simpl.
  destruct (isinstance_SkyRegion r1), (isinstance_SkyRegion r2); reflexivity.
Qed.

Ltac unfold_algebra :=
  unfold Region___and__, Region___or__, Region___xor__,
    intersection, union, symmetric_difference,
    PixelRegion_intersection, PixelRegion_union, PixelRegion_symmetric_difference,
    SkyRegion_intersection, SkyRegion_union, SkyRegion_symmetric_difference;
  rewrite ?CompoundPixelRegion_accepts, ?CompoundSkyRegion_accepts.

(** C2: for regions [a] and [b] of one frame family, [a.union(b)],
    [a.intersection(b)] and [a.symmetric_difference(b)] return the compound
    of that family whose [region1] is [a], whose [region2] is [b] and whose
    operator is [or_], [and_] and [xor] respectively; and [a | o], [a & o],
    [a ^ o] are, for every operand [o], the results of the three methods. *)
Theorem algebra_builds_compound (a b : Region) (Hf : frame_of a = frame_of b) :
  union a (PyRegion b)
    = inr (Compound (frame_of a) (PyRegion a) (PyRegion b) operator_or_)
  /\ intersection a (PyRegion b)
    = inr (Compound (frame_of a) (PyRegion a) (PyRegion b) operator_and_)
  /\ symmetric_difference a (PyRegion b)
    = inr (Compound (frame_of a) (PyRegion a) (PyRegion b) operator_xor)
  /\ (forall o : pyval,
        Region___or__ a o = union a o
        /\ Region___and__ a o = intersection a o
        /\ Region___xor__ a o = symmetric_difference a o).
Proof.
  repeat split; unfold_algebra; simpl;
    destruct (frame_of a) eqn:Ha; rewrite ?CompoundPixelRegion_accepts,
      ?CompoundSkyRegion_accepts; simpl; rewrite <- Hf, ?Ha; reflexivity.
Qed.

Lemma algebra_builds_compound_witness :
  union (Shape Pixel 1%positive) (PyRegion (Shape Pixel 2%positive))
  = inr (Compound Pixel (PyRegion (Shape Pixel 1%positive)) (PyRegion (Shape Pixel 2%positive)) operator_or_).
Proof.
  apply (proj1 (algebra_builds_compound (Shape Pixel 1%positive) (Shape Pixel 2%positive) eq_refl)).
Defined.

(** C8: a compound pixel region is constructed exactly when both operands
    are pixel regions, and a compound sky region exactly when both are sky
    regions; so for regions [a] and [b] of different frame families each
    of the three methods, and each of the three operators, raises the
    [ValueError] of the descriptor of [region2] and returns no compound. *)
Theorem mixed_frames_rejected (a b : Region) (Hf : frame_of a <> frame_of b) :
  let e := Raise ValueError
             (attr_message (match frame_of a with
                            | Pixel => CompoundRegionPix
                            | Sky => CompoundRegionSky
                            end)) [PyStr "region2"] in
  (intersection a (PyRegion b) = inl e
   /\ union a (PyRegion b) = inl e
   /\ symmetric_difference a (PyRegion b) = inl e)
  /\ (Region___and__ a (PyRegion b) = inl e
      /\ Region___or__ a (PyRegion b) = inl e
      /\ Region___xor__ a (PyRegion b) = inl e)
  /\ (forall (r1 r2 : pyval) (op : pyoperator),
        ((exists c, CompoundPixelRegion r1 r2 op = inr c)
           <-> isinstance_PixelRegion r1 = true /\ isinstance_PixelRegion r2 = true)
        /\ ((exists c, CompoundSkyRegion r1 r2 op = inr c)
           <-> isinstance_SkyRegion r1 = true /\ isinstance_SkyRegion r2 = true)).
Proof.
  intros e. subst e.
  assert (Hab : forall op,
    match frame_of a with
    | Pixel => CompoundPixelRegion (PyRegion a) (PyRegion b) op
    | Sky => CompoundSkyRegion (PyRegion a) (PyRegion b) op
    end
    = inl (Raise ValueError
             (attr_message (match frame_of a with
                            | Pixel => CompoundRegionPix
                            | Sky => CompoundRegionSky
                            end)) [PyStr "region2"])).
  { intros op. rewrite CompoundPixelRegion_accepts, CompoundSkyRegion_accepts. simpl.
    destruct (frame_of a) eqn:Ha, (frame_of b) eqn:Hb; try congruence; reflexivity. }
  split; [|split].
  - repeat split; apply Hab.
  - repeat split; apply Hab.
  - intros r1 r2 op.
    rewrite CompoundPixelRegion_accepts, CompoundSkyRegion_accepts.
    split; split.
    + intros [c Hc]. destruct (isinstance_PixelRegion r1), (isinstance_PixelRegion r2);
        try discriminate; auto.
    + intros [-> ->]. eexists. reflexivity.
    + intros [c Hc]. destruct (isinstance_SkyRegion r1), (isinstance_SkyRegion r2);
        try discriminate; auto.
    + intros [-> ->]. eexists. reflexivity.
Qed.

Lemma mixed_frames_rejected_witness :
  intersection (Shape Pixel 1%positive) (PyRegion (Shape Sky 2%positive))
  = inl (Raise ValueError "The {} must be a PixelRegion object" [PyStr "region2"]).
Proof.
  apply (proj1 (proj1 (mixed_frames_rejected (Shape Pixel 1%positive) (Shape Sky 2%positive)
                         ltac:(discriminate)))).
Defined.

(** ** Mask-mode validation *)

Lemma VALID_MASK_MODES_cases (mode : string) :
  mode ∈ VALID_MASK_MODES <-> mode = "center" \/ mode = "exact" \/ mode = "subpixels".
Proof.
  unfold VALID_MASK_MODES. rewrite !elem_of_union, !elem_of_singleton. tauto.
Qed.

Lemma VALID_MASK_MODES_iterated {It : SetIteration} :
  set_iter VALID_MASK_MODES ≡ₚ ["center"; "exact"; "subpixels"].
Proof.
  rewrite set_iter_members. apply NoDup_Permutation.
  - apply NoDup_elements.
  - repeat constructor; rewrite ?elem_of_cons, ?elem_of_nil;
      intros H; repeat destruct H as [H|H]; try discriminate H; exact H.
  - intros x. rewrite elem_of_elements, VALID_MASK_MODES_cases.
    rewrite !elem_of_cons, elem_of_nil. tauto.
Qed.

Lemma validate_mode_eq {It : SetIteration} (mode : string) (subpixels : pyval) :
  PixelRegion__validate_mode mode subpixels
  = if bool_decide (mode ∈ VALID_MASK_MODES)
    then if bool_decide (mode = "subpixels")
         then if isinstance_int subpixels && (0 <? int_value subpixels)%Z
              then inr tt
              else inl (Raise ValueError
                          "Invalid subpixels value: {0} (should be a strictly positive integer)"
                          [subpixels])
         else inr tt
    else inl (Raise ValueError "Invalid mask mode: {0} (should be one of {1})"
                [PyStr mode; PyStr (String.concat "/" (set_iter VALID_MASK_MODES))]).
Proof.
  unfold PixelRegion__validate_mode.
  destruct (bool_decide (mode ∈ VALID_MASK_MODES)); simpl; [|reflexivity].
  destruct (String.eqb_spec mode "subpixels") as [->|Hne].
  - rewrite bool_decide_eq_true_2 by reflexivity.
    destruct (isinstance_int subpixels); simpl; [|reflexivity].
    rewrite Z.leb_antisym. destruct (0 <? int_value subpixels)%Z; reflexivity.
  - rewrite bool_decide_eq_false_2 by exact Hne. reflexivity.
Qed.

(** C5: [_validate_mode] raises exactly when [mode] is none of "center",
    "exact", "subpixels", or [mode] is "subpixels" and [subpixels] is not
    an [int] instance (a Python int or bool; a numpy integer or a float
    is none) with a value above zero.  What it raises is a [ValueError]:
    for a bad mode its arguments are the mode and the three valid modes
    joined by "/" in the order the interpreter iterates over the set,
    for a bad [subpixels] its argument is that value.  With mode "center"
    or "exact" every [subpixels] passes. *)
Theorem validate_mode_contract {It : SetIteration} (mode : string) (subpixels : pyval) :
  ((exists e, PixelRegion__validate_mode mode subpixels = inl e)
     <-> (mode ∉ VALID_MASK_MODES
          \/ (mode = "subpixels"
              /\ ~ (isinstance_int subpixels = true /\ (0 < int_value subpixels)%Z))))
  /\ (forall e, PixelRegion__validate_mode mode subpixels = inl e ->
        exn_cls e = ValueError
        /\ (mode ∉ VALID_MASK_MODES ->
              exn_args e = [PyStr mode; PyStr (String.concat "/" (set_iter VALID_MASK_MODES))]
              /\ set_iter VALID_MASK_MODES ≡ₚ ["center"; "exact"; "subpixels"])
        /\ (mode ∈ VALID_MASK_MODES -> exn_args e = [subpixels]))
  /\ (mode = "center" \/ mode = "exact" ->
        PixelRegion__validate_mode mode subpixels = inr tt).
Proof.
  rewrite validate_mode_eq.
  destruct (decide (mode ∈ VALID_MASK_MODES)) as [Hin|Hout].
  - rewrite (bool_decide_eq_true_2 _ Hin).
    destruct (decide (mode = "subpixels")) as [->|Hne].
    + rewrite bool_decide_eq_true_2 by reflexivity.
      destruct (isinstance_int subpixels) eqn:Hi; simpl.
      * destruct (0 <? int_value subpixels)%Z eqn:Hp.
        -- apply Z.ltb_lt in Hp. split; [|split].
           ++ split; [intros [e He]; discriminate|].
              intros [Hno | [_ Hno]]; [contradiction | exfalso; apply Hno; auto].
           ++ intros e He. discriminate.
           ++ intros [H | H]; discriminate.
        -- apply Z.ltb_ge in Hp. split; [|split].
           ++ split; [|intros _; eexists; reflexivity].
              intros _. right. split; [reflexivity|]. intros [_ Hpos]. lia.
           ++ intros e He. injection He as <-. simpl.
              repeat split; intros; try contradiction; auto.
           ++ intros [H | H]; discriminate.
      * split; [|split].
        -- split; [|intros _; eexists; reflexivity].
           intros _. right. split; [reflexivity|]. intros [Hno _]. discriminate.
        -- intros e He. injection He as <-. simpl.
           repeat split; intros; try contradiction; auto.
        -- intros [H | H]; discriminate.
    + rewrite bool_decide_eq_false_2 by exact Hne. split; [|split].
      * split; [intros [e He]; discriminate|].
        intros [Hno | [Hs _]]; contradiction.
      * intros e He. discriminate.
      * reflexivity.
  - rewrite (bool_decide_eq_false_2 _ Hout). split; [|split].
    + split; [intros _; left; exact Hout | intros _; eexists; reflexivity].
    + intros e He. injection He as <-. simpl.
      split; [reflexivity|]. split; [|intros; contradiction].
      intros _. split; [reflexivity | apply VALID_MASK_MODES_iterated].
    + intros H. exfalso. apply Hout. apply VALID_MASK_MODES_cases. tauto.
Qed.

Lemma validate_mode_contract_witness :
  PixelRegion__validate_mode (H := elements_iteration) "center" (PyInt 4) = inr tt
  /\ (exists e, PixelRegion__validate_mode (H := elements_iteration) "subpixels" (PyInt 0)
                = inl e)
  /\ (exists e, PixelRegion__validate_mode (H := elements_iteration) "subpixels"
                  (PyNumpy "int64" 5) = inl e).
Proof.
  split; [|split].
  - apply (proj2 (proj2 (validate_mode_contract (It := elements_iteration)
                           "center" (PyInt 4)))). left. reflexivity.
  - apply (proj2 (proj1 (validate_mode_contract (It := elements_iteration)
                           "subpixels" (PyInt 0)))).
    right. split; [reflexivity|]. intros [_ H]. simpl in H. lia.
  - apply (proj2 (proj1 (validate_mode_contract (It := elements_iteration)
                           "subpixels" (PyNumpy "int64" 5)))).
    right. split; [reflexivity|]. intros [H _]. discriminate H.
Defined.

(** ** The metadata dictionaries *)

Lemma RegionMeta_resolve (key : string) :
  dict_get RegionMeta_key_mapping key key
  = if bool_decide (key = "point") then "symbol"
    else if bool_decide (key = "text") then "label" else key.
Proof.
  unfold dict_get, RegionMeta_key_mapping.
  rewrite !lookup_insert, lookup_empty.
  repeat case_bool_decide; repeat case_decide; congruence.
Qed.

Lemma RegionVisual_resolve (key : string) :
  dict_get RegionVisual_key_mapping key key
  = if bool_decide (key = "width") then "linewidth" else key.
Proof.
  unfold dict_get, RegionVisual_key_mapping.
  rewrite !lookup_insert, lookup_empty.
  repeat case_bool_decide; repeat case_decide; congruence.
Qed.

Lemma RegionMeta_resolve_idem (key : string) :
  dict_get RegionMeta_key_mapping (dict_get RegionMeta_key_mapping key key)
    (dict_get RegionMeta_key_mapping key key)
  = dict_get RegionMeta_key_mapping key key.
Proof.
  rewrite (RegionMeta_resolve key).
  repeat case_bool_decide; subst; try reflexivity.
  rewrite RegionMeta_resolve. rewrite !bool_decide_eq_false_2 by assumption. reflexivity.
Qed.

Lemma RegionVisual_resolve_idem (key : string) :
  dict_get RegionVisual_key_mapping (dict_get RegionVisual_key_mapping key key)
    (dict_get RegionVisual_key_mapping key key)
  = dict_get RegionVisual_key_mapping key key.
Proof.
  rewrite (RegionVisual_resolve key).
  case_bool_decide; subst; try reflexivity.
  rewrite RegionVisual_resolve. rewrite bool_decide_eq_false_2 by assumption. reflexivity.
Qed.

Lemma RegionMeta_rejected_is_unaliased (key : string) :
  dict_get RegionMeta_key_mapping key key ∉ RegionMeta_valid_keys ->
  dict_get RegionMeta_key_mapping key key = key.
Proof.
  rewrite RegionMeta_resolve. repeat case_bool_decide; try reflexivity;
    intros Hno; exfalso; apply Hno; apply (bool_decide_unpack _); vm_compute; exact I.
Qed.

Lemma RegionVisual_rejected_is_unaliased (key : string) :
  dict_get RegionVisual_key_mapping key key ∉ RegionVisual_valid_keys ->
  dict_get RegionVisual_key_mapping key key = key.
Proof.
  rewrite RegionVisual_resolve. case_bool_decide; try reflexivity;
    intros Hno; exfalso; apply Hno; apply (bool_decide_unpack _); vm_compute; exact I.
Qed.

(** C9: both metadata dictionaries resolve the key through their alias
    table before the membership test, on writes and on reads; a key whose
    resolution is outside the vocabulary raises [KeyError] carrying that
    key and the dictionary is unchanged; in particular writing under
    "point" is writing under "symbol" (meta) and writing under "width" is
    writing under "linewidth" (visual). *)
Theorem metadata_keys_are_aliased_then_checked :
  restricted_dict_contract RegionMeta___setitem__ RegionMeta___getitem__
    RegionMeta_key_mapping RegionMeta_valid_keys "{} is not a valid meta key for region."
  /\ restricted_dict_contract RegionVisual___setitem__ RegionVisual___getitem__
    RegionVisual_key_mapping RegionVisual_valid_keys
    "{} is not a valid visual meta key for region."
  /\ (forall (v : pyval) (d : gmap string pyval),
        RegionMeta___setitem__ "point" v d = RegionMeta___setitem__ "symbol" v d
        /\ RegionMeta___setitem__ "symbol" v d = (inr tt, <["symbol" := v]> d)
        /\ RegionVisual___setitem__ "width" v d = RegionVisual___setitem__ "linewidth" v d
        /\ RegionVisual___setitem__ "linewidth" v d = (inr tt, <["linewidth" := v]> d)).
Proof.
  split; [|split].
  - intros key value d k. subst k. repeat split.
    + intros Hin. unfold RegionMeta___setitem__.
      rewrite (bool_decide_eq_true_2 _ Hin). reflexivity.
    + intros Hout. unfold RegionMeta___setitem__.
      rewrite (bool_decide_eq_false_2 _ Hout).
      rewrite (RegionMeta_rejected_is_unaliased key Hout). reflexivity.
    + unfold RegionMeta___setitem__. rewrite RegionMeta_resolve_idem. reflexivity.
    + unfold RegionMeta___getitem__. rewrite RegionMeta_resolve_idem. reflexivity.
  - intros key value d k. subst k. repeat split.
    + intros Hin. unfold RegionVisual___setitem__.
      rewrite (bool_decide_eq_true_2 _ Hin). reflexivity.
    + intros Hout. unfold RegionVisual___setitem__.
      rewrite (bool_decide_eq_false_2 _ Hout).
      rewrite (RegionVisual_rejected_is_unaliased key Hout). reflexivity.
    + unfold RegionVisual___setitem__. rewrite RegionVisual_resolve_idem. reflexivity.
    + unfold RegionVisual___getitem__. rewrite RegionVisual_resolve_idem. reflexivity.
  - intros v d. repeat split.
Qed.

Lemma metadata_keys_are_aliased_then_checked_witness :
  RegionMeta___setitem__ "nonsense" (PyInt 1) ∅
  = (inl (Raise KeyError "{} is not a valid meta key for region." [PyStr "nonsense"]), ∅).
Proof.
  apply (proj1 (proj2 (proj1 metadata_keys_are_aliased_then_checked
                         "nonsense" (PyInt 1) ∅))).
  apply (bool_decide_unpack _). vm_compute. exact I.
Defined.

(** ** Containment *)

Section Containment.
Context {World WCS : Type} `{Methods : RegionMethods World WCS}.

Lemma SkyRegion_contains_eq (s : Region) (p : SkyCoord) (w : WCS) (st : World) :
  SkyRegion_contains s p w st = contains_via_pixel s p w st.
Proof.
  unfold SkyRegion_contains, contains_via_pixel, bind.
  destruct (SkyRegion_to_pixel s w st) as [[e|pr] st1]; [reflexivity|].
  destruct (PixCoord_from_sky p w st1) as [[e|q] st2]; reflexivity.
Qed.

(** C10: [__contains__] raises a [ValueError] carrying the coordinate
    when the coordinate is not scalar, whatever [contains] would do with
    it, and for a scalar coordinate it is [contains] on that coordinate:
    same result, same effect. *)
Theorem membership_is_scalar_contains (r : Region) (coord : PixCoord) (st : World) :
  (PixCoord_isscalar coord = false ->
     PixelRegion___contains__ r coord st
     = (inl (Raise ValueError "coord must be scalar. coord={}" [PyPixCoord coord]), st))
  /\ (PixCoord_isscalar coord = true ->
     PixelRegion___contains__ r coord st = PixelRegion_contains r coord st).
Proof.
  unfold PixelRegion___contains__. split; intros ->; reflexivity.
Qed.

(** C3, as the code has it: [SkyRegion.contains] tests nothing about the
    coordinate.  For any coordinate, a sequence included, once
    [to_pixel], [from_sky] and the pixel region's [contains] return, it
    returns the value of the latter; and an exception it raises is one
    raised by one of these three calls. *)
Theorem sky_contains_has_no_scalar_check (s : Region) (p : SkyCoord) (w : WCS) (st : World) :
  (forall pr st1 q st2 v st3,
      SkyRegion_to_pixel s w st = (inr pr, st1) ->
      PixCoord_from_sky p w st1 = (inr q, st2) ->
      PixelRegion_contains pr q st2 = (inr v, st3) ->
      SkyRegion_contains s p w st = (inr v, st3))
  /\ (forall e st',
      SkyRegion_contains s p w st = (inl e, st') ->
      SkyRegion_to_pixel s w st = (inl e, st')
      \/ (exists pr st1, SkyRegion_to_pixel s w st = (inr pr, st1)
                         /\ PixCoord_from_sky p w st1 = (inl e, st'))
      \/ (exists pr st1 q st2, SkyRegion_to_pixel s w st = (inr pr, st1)
                               /\ PixCoord_from_sky p w st1 = (inr q, st2)
                               /\ PixelRegion_contains pr q st2 = (inl e, st'))).
Proof.
  split.
  - intros pr st1 q st2 v st3 H1 H2 H3.
    unfold SkyRegion_contains, bind. rewrite H1, H2. exact H3.
  - intros e st'. unfold SkyRegion_contains, bind.
    destruct (SkyRegion_to_pixel s w st) as [[e1|pr] st1] eqn:H1.
    + intros [= -> ->]. left. reflexivity.
    + destruct (PixCoord_from_sky p w st1) as [[e2|q] st2] eqn:H2.
      * intros [= -> ->]. right. left. eauto.
      * intros H3. right. right. eauto 10.
Qed.

End Containment.

(** C3, as the specification states it, fails: a sky region asked about a
    sequence of two coordinates answers with the array of the two
    point-by-point results and raises nothing. *)
Lemma sky_contains_sequence_does_not_raise :
  let p := mk_SkyCoord [2%nat] [0%Q; 3%Q] [0%Q; 0%Q] in
  SkyCoord_isscalar p = false
  /\ @SkyRegion_contains nat unit unit_disc_methods (Shape Sky 7%positive) p tt 0%nat
     = (inr (PyNdarray (mk_ndarray [2%nat] [1%Q; 0%Q])), 1%nat)
  /\ ~ (forall (World WCS : Type) (Methods : RegionMethods World WCS)
               (s : Region) (p : SkyCoord) (w : WCS) (st : World),
           SkyCoord_isscalar p = false ->
           exists e st', SkyRegion_contains s p w st = (inl e, st')
                         /\ exn_cls e = ValueError).
Proof.
  intros p. split; [reflexivity|]. split; [reflexivity|].
  intros Hall.
  destruct (Hall nat unit unit_disc_methods (Shape Sky 7%positive) p tt 0%nat eq_refl)
    as [e [st' [Hrun _]]].
  discriminate Hrun.
Qed.

Lemma sky_contains_has_no_scalar_check_witness :
  @SkyRegion_contains nat unit unit_disc_methods (Shape Sky 7%positive)
    (mk_SkyCoord [2%nat] [0%Q; 3%Q] [0%Q; 0%Q]) tt 0%nat
  = (inr (PyNdarray (mk_ndarray [2%nat] [1%Q; 0%Q])), 1%nat).
Proof.
  apply (proj1 (@sky_contains_has_no_scalar_check nat unit unit_disc_methods
                  (Shape Sky 7%positive) (mk_SkyCoord [2%nat] [0%Q; 3%Q] [0%Q; 0%Q]) tt 0%nat)
           (Shape Pixel 1%positive) 1%nat
           (PixCoord_array (mk_ndarray [2%nat] [0%Q; 3%Q]) (mk_ndarray [2%nat] [0%Q; 0%Q]))
           1%nat); reflexivity.
Defined.

Lemma membership_is_scalar_contains_witness :
  @PixelRegion___contains__ nat unit unit_disc_methods (Shape Pixel 1%positive)
    (PixCoord_array (mk_ndarray [2%nat] [0%Q; 3%Q]) (mk_ndarray [2%nat] [0%Q; 0%Q])) 0%nat
  = (inl (Raise ValueError "coord must be scalar. coord={}"
            [PyPixCoord (PixCoord_array (mk_ndarray [2%nat] [0%Q; 3%Q])
                           (mk_ndarray [2%nat] [0%Q; 0%Q]))]), 0%nat)
  /\ @PixelRegion___contains__ nat unit unit_disc_methods (Shape Pixel 1%positive)
       (PixCoord_scalar 0 0) 0%nat
     = @PixelRegion_contains nat unit unit_disc_methods (Shape Pixel 1%positive)
         (PixCoord_scalar 0 0) 0%nat.
Proof.
  split.
  - apply (proj1 (@membership_is_scalar_contains nat unit unit_disc_methods
                    (Shape Pixel 1%positive) _ 0%nat)). reflexivity.
  - apply (proj2 (@membership_is_scalar_contains nat unit unit_disc_methods
                    (Shape Pixel 1%positive) _ 0%nat)). reflexivity.
Defined.

(** C4: for every sky region, transform and sky coordinate,
    [s.contains(p, w)] is [s.to_pixel(w).contains(q)] with [q] the pixel
    coordinate [from_sky] gives for [p] under the same [w]: the same
    result or exception, and the same effects in the same order.  Nothing
    is kept from one call to the next: a second call runs [to_pixel] again
    in the world the first call left, and in the example world, which
    counts the calls of [to_pixel], every call of [contains] adds one. *)
Theorem sky_contains_delegates_to_pixel :
  (forall (World WCS : Type) (Methods : RegionMethods World WCS)
          (s : Region) (p : SkyCoord) (w : WCS) (st : World),
      SkyRegion_contains s p w st = contains_via_pixel s p w st)
  /\ (forall (World WCS : Type) (Methods : RegionMethods World WCS)
             (s : Region) (p p' : SkyCoord) (w w' : WCS) (st : World),
      (let* first := SkyRegion_contains s p w in SkyRegion_contains s p' w') st
      = (let* first := contains_via_pixel s p w in contains_via_pixel s p' w') st)
  /\ (forall (s : Region) (p : SkyCoord) (w : unit) (calls : nat),
      snd (@SkyRegion_contains nat unit unit_disc_methods s p w calls) = S calls).
Proof.
  split; [|split].
  - intros. apply SkyRegion_contains_eq.
  - intros.
    change ((let* first := SkyRegion_contains s p w in SkyRegion_contains s p' w') st)
      with (match SkyRegion_contains s p w st with
            | (inl e, s') => (inl e, s')
            | (inr _, s') => SkyRegion_contains s p' w' s'
            end).
    change ((let* first := contains_via_pixel s p w in contains_via_pixel s p' w') st)
      with (match contains_via_pixel s p w st with
            | (inl e, s') => (inl e, s')
            | (inr _, s') => contains_via_pixel s p' w' s'
            end).
    rewrite SkyRegion_contains_eq.
    destruct (contains_via_pixel s p w st) as [[e|v] st1]; [reflexivity|].
    apply SkyRegion_contains_eq.
  - intros. reflexivity.
Qed.

(** * Further properties *)

(** ** Writes to the lengths of an annulus *)

Lemma setattr_outcome (h : heap) (o : objid) (n : string) (v : pyval) :
  writes_only (setattr o n v) o n v h.
Proof.
  unfold writes_only.
  destruct (class_attrs h !! n) as [d|] eqn:Hd.
  - destruct (attr_accepts (attr_cls d) v) eqn:Hv.
    + right. rewrite (setattr_accepted h o n v d Hd Hv).
      eexists. split; [reflexivity|]. split.
      * rewrite (attr_of_stored h o o n n v d Hd).
        rewrite bool_decide_eq_true_2 by auto. reflexivity.
      * intros o' n' Hne. rewrite (attr_of_stored h o o' n n' v d Hd).
        rewrite bool_decide_eq_false_2 by (intros [E1 E2]; apply Hne; subst; auto).
        reflexivity.
    + left. rewrite (setattr_rejected h o n v d Hd Hv). eexists. reflexivity.
  - right. rewrite (setattr_plain h o n v Hd).
    eexists. split; [reflexivity|]. split.
    + rewrite (attr_of_plain h o o n n v Hd).
      rewrite bool_decide_eq_true_2 by auto. reflexivity.
    + intros o' n' Hne. rewrite (attr_of_plain h o o' n n' v Hd).
      rewrite bool_decide_eq_false_2 by (intros [E1 E2]; apply Hne; subst; auto).
      reflexivity.
Qed.

(** A guarded write: a test, a read of the other operand, a comparison
    that may raise, then the write. *)
Lemma guarded_write_outcome (test : bool) (other target : objid) (n : string) (v : pyval)
    (cmp : pyval -> result bool) (e1 e2 : exn) (h : heap) :
  writes_only
    (if test then
       let* bound := getattr other n in
       let* out_of_order := lift (cmp bound) in
       if (out_of_order : bool) then raise e1 else setattr target n v
     else raise e2)
    target n v h.
Proof.
  destruct test; [|left; eexists; reflexivity].
  set (m := bind _ _).
  assert (Hm : m h = match attr_of h other n with
                     | inl e => (inl e, h)
                     | inr bound =>
                         match cmp bound with
                         | inl e => (inl e, h)
                         | inr true => (inl e1, h)
                         | inr false => setattr target n v h
                         end
                     end).
  { subst m. unfold bind, lift. rewrite getattr_pure.
    destruct (attr_of h other n) as [e|bound]; [reflexivity|].
    destruct (cmp bound) as [e|[|]]; reflexivity. }
  unfold writes_only. rewrite Hm. clear Hm m.
  destruct (attr_of h other n) as [e|bound]; [left; eexists; reflexivity|].
  destruct (cmp bound) as [e|[|]].
  - left. eexists. reflexivity.
  - left. eexists. reflexivity.
  - exact (setattr_outcome h target n v).
Qed.

(** X1: each of the four length setters of an annulus (inner and outer,
    number and quantity), on any heap and for any value, either raises
    and leaves the heap as it was, or returns with the value stored on
    the operand it targets (region1 for inner, region2 for outer) and
    with every other attribute of every object unchanged. *)
Theorem annulus_length_write_all_or_nothing (Np : NumpyCompare) (Cmp : QuantityCompare)
    (n : string)
    (instance : annulus) (value : pyval) (h : heap) :
  writes_only (AnnulusInnerScalarLength___set__ n instance value)
    (region1 instance) n value h
  /\ writes_only (AnnulusOuterScalarLength___set__ n instance value)
    (region2 instance) n value h
  /\ writes_only (AnnulusInnerQuantityLength___set__ n instance value)
    (region1 instance) n value h
  /\ writes_only (AnnulusOuterQuantityLength___set__ n instance value)
    (region2 instance) n value h.
Proof.
  repeat split.
  - apply (guarded_write_outcome (np_isscalar value) (region2 instance) (region1 instance)
             n value (fun outer => py_lt outer value)).
  - apply (guarded_write_outcome (np_isscalar value) (region1 instance) (region2 instance)
             n value (fun inner => py_gt inner value)).
  - apply (guarded_write_outcome (isinstance_Quantity value && isscalar value)
             (region2 instance) (region1 instance)
             n value (fun outer => quantity_lt outer value)).
  - apply (guarded_write_outcome (isinstance_Quantity value && isscalar value)
             (region1 instance) (region2 instance)
             n value (fun inner => quantity_gt inner value)).
Qed.

Lemma Qltb_ge (x y : Q) : Qltb x y = false <-> (y <= x)%Q.
Proof.
  split.
  - intros H. apply Qnot_lt_le. intros Hlt. apply Qltb_lt in Hlt. congruence.
  - intros H. destruct (Qltb x y) eqn:E; [|reflexivity].
    apply Qltb_lt in E. exfalso. exact (Qlt_not_le _ _ E H).
Qed.

Lemma inner_write_of_non_number {Np : NumpyCompare} (h : heap) (n : string)
    (instance : annulus) (v : pyval) (d : RegionAttr) (outer : Q) :
  class_attrs h !! n = Some d ->
  as_number (RegionAttr___get__ d (region2 instance)) = Some outer ->
  as_number v = None -> compares_by_value v = true ->
  snd (AnnulusInnerScalarLength___set__ n instance v h) = h.
Proof.
  intros Hd Ho Hv Hp. unfold AnnulusInnerScalarLength___set__.
  destruct (np_isscalar v) eqn:Hs; [|reflexivity]. cbv zeta. unfold bind at 1.
  rewrite getattr_pure, (attr_of_descriptor _ _ _ _ Hd).
  destruct (as_number_python _ _ Ho) as [No Po].
  unfold bind, lift, py_lt. rewrite No, Po.
  destruct v; try discriminate; simpl.
  destruct (RegionAttr___get__ d (region2 instance)); try discriminate Ho; reflexivity.
Qed.

Lemma outer_write_of_non_number {Np : NumpyCompare} (h : heap) (n : string)
    (instance : annulus) (v : pyval) (d : RegionAttr) (inner : Q) :
  class_attrs h !! n = Some d ->
  as_number (RegionAttr___get__ d (region1 instance)) = Some inner ->
  as_number v = None -> compares_by_value v = true ->
  snd (AnnulusOuterScalarLength___set__ n instance v h) = h.
Proof.
  intros Hd Hi Hv Hp. unfold AnnulusOuterScalarLength___set__.
  destruct (np_isscalar v) eqn:Hs; [|reflexivity]. cbv zeta. unfold bind at 1.
  rewrite getattr_pure, (attr_of_descriptor _ _ _ _ Hd).
  destruct (as_number_python _ _ Hi) as [Ni Pi].
  unfold bind, lift, py_gt. rewrite Ni, Pi.
  destruct v; try discriminate; simpl.
  destruct (RegionAttr___get__ d (region1 instance)); try discriminate Hi; reflexivity.
Qed.

Lemma inner_write_keeps_order {Np : NumpyCompare} (n : string) (instance : annulus)
    (v : pyval) (h : heap) :
  compares_by_value v = true ->
  lengths_in_order n instance h ->
  lengths_in_order n instance (snd (AnnulusInnerScalarLength___set__ n instance v h)).
Proof.
  intros Hp (d & i & o & Hd & Hc & Hi & Ho & Hle).
  destruct (as_number v) as [q|] eqn:Hv.
  - rewrite (AnnulusInnerScalarLength_set_numeric h n instance v d o q Hd Hc Ho Hv).
    destruct (Qltb o q) eqn:E.
    + exists d, i, o. auto.
    + apply Qltb_ge in E. simpl snd.
      exists (stored d (region1 instance) v), q,
             (if bool_decide (region1 instance = region2 instance) then q else o).
      split; [simpl; apply lookup_insert_eq|].
      split; [exact Hc|]. unfold stored. rewrite !RegionAttr_get_insert.
      rewrite (bool_decide_eq_true_2 (region1 instance = region1 instance)) by reflexivity.
      split; [exact Hv|].
      case_bool_decide; split; auto. apply Qle_refl.
  - rewrite (inner_write_of_non_number h n instance v d o Hd Ho Hv Hp).
    exists d, i, o. auto.
Qed.

Lemma outer_write_keeps_order {Np : NumpyCompare} (n : string) (instance : annulus)
    (v : pyval) (h : heap) :
  compares_by_value v = true ->
  lengths_in_order n instance h ->
  lengths_in_order n instance (snd (AnnulusOuterScalarLength___set__ n instance v h)).
Proof.
  intros Hp (d & i & o & Hd & Hc & Hi & Ho & Hle).
  destruct (as_number v) as [q|] eqn:Hv.
  - rewrite (AnnulusOuterScalarLength_set_numeric h n instance v d i q Hd Hc Hi Hv).
    destruct (Qltb q i) eqn:E.
    + exists d, i, o. auto.
    + apply Qltb_ge in E. simpl snd.
      exists (stored d (region2 instance) v),
             (if bool_decide (region2 instance = region1 instance) then q else i), q.
      split; [simpl; apply lookup_insert_eq|].
      split; [exact Hc|]. unfold stored. rewrite !RegionAttr_get_insert.
      rewrite (bool_decide_eq_true_2 (region2 instance = region2 instance)) by reflexivity.
      case_bool_decide; repeat split; auto. apply Qle_refl.
  - rewrite (outer_write_of_non_number h n instance v d i Hd Hi Hv Hp).
    exists d, i, o. auto.
Qed.

(** X2: an annulus whose two operands hold Python numbers (bool, int or
    finite float) with the inner one not above the outer one stays so
    under any sequence of assignments to its inner and outer length,
    whichever of them raise, as long as no assigned value is nan, an
    infinity or a numpy scalar.  (Those are compared by other rules: nan
    passes both tests and is stored, see [nan_passes_the_order_tests].) *)
Theorem annulus_lengths_stay_in_order {Np : NumpyCompare} (n : string) (instance : annulus)
    (ops : list length_write) (h : heap) :
  lengths_in_order n instance h ->
  Forall (fun op => compares_by_value (length_write_value op) = true) ops ->
  lengths_in_order n instance (write_lengths n instance ops h).
Proof.
  intros Hh Hops. revert h Hh.
  induction Hops as [|op rest Hop Hrest IH]; intros h Hh; simpl; [exact Hh|].
  destruct op as [v|v]; apply IH.
  - apply inner_write_keeps_order; assumption.
  - apply outer_write_keeps_order; assumption.
Qed.

Lemma circle_operands_in_order :
  lengths_in_order "radius" (mk_annulus 1%positive 2%positive)
    (circle_operands (PyFloat 3) (PyFloat 5)).
Proof.
  exists (mk_RegionAttr ScalarLength "radius"
            (<[1%positive := PyFloat 3]> (<[2%positive := PyFloat 5]> ∅))), 3%Q, 5%Q.
  repeat split; try reflexivity. discriminate.
Defined.

Lemma annulus_lengths_stay_in_order_witness :
  lengths_in_order "radius" (mk_annulus 1%positive 2%positive)
    (write_lengths (H := numpy_via_float64) "radius" (mk_annulus 1%positive 2%positive)
       [SetInner (PyFloat 6); SetOuter (PyInt 8); SetInner (PyFloat 8); SetOuter PyNone]
       (circle_operands (PyFloat 3) (PyFloat 5))).
Proof.
  apply (annulus_lengths_stay_in_order (Np := numpy_via_float64)
           "radius" (mk_annulus 1%positive 2%positive)
           [SetInner (PyFloat 6); SetOuter (PyInt 8); SetInner (PyFloat 8); SetOuter PyNone]
           (circle_operands (PyFloat 3) (PyFloat 5))).
  - exact circle_operands_in_order.
  - repeat constructor.
Defined.

(** The order tests do not stop nan: on an annulus whose operands hold
    Python numbers, nan assigned to the inner or to the outer length is
    stored, since every comparison with nan is false. *)
Lemma nan_passes_the_order_tests {Np : NumpyCompare} (h : heap) (n : string)
    (instance : annulus) (d : RegionAttr) (inner outer : Q) :
  class_attrs h !! n = Some d -> attr_cls d = ScalarLength ->
  as_number (RegionAttr___get__ d (region1 instance)) = Some inner ->
  as_number (RegionAttr___get__ d (region2 instance)) = Some outer ->
  AnnulusInnerScalarLength___set__ n instance PyNaN h
  = (inr tt, mk_heap (<[n := stored d (region1 instance) PyNaN]> (class_attrs h))
               (inst_dict h))
  /\ AnnulusOuterScalarLength___set__ n instance PyNaN h
     = (inr tt, mk_heap (<[n := stored d (region2 instance) PyNaN]> (class_attrs h))
                  (inst_dict h)).
Proof.
  intros Hd Hc Hi Ho.
  destruct (as_number_python _ _ Hi) as [Ni Pi].
  destruct (as_number_python _ _ Ho) as [No Po].
  split.
  - unfold AnnulusInnerScalarLength___set__. change (np_isscalar PyNaN) with true. cbv beta iota zeta.
    unfold bind at 1. rewrite getattr_pure, (attr_of_descriptor _ _ _ _ Hd).
    unfold bind, lift, py_lt. rewrite No, Po. simpl.
    apply setattr_accepted; [exact Hd|]. rewrite Hc. reflexivity.
  - unfold AnnulusOuterScalarLength___set__. change (np_isscalar PyNaN) with true. cbv beta iota zeta.
    unfold bind at 1. rewrite getattr_pure, (attr_of_descriptor _ _ _ _ Hd).
    unfold bind, lift, py_gt. rewrite Ni, Pi. simpl.
    apply setattr_accepted; [exact Hd|]. rewrite Hc. reflexivity.
Qed.

(** With numpy's comparison through [float64], the [int64] 2**53 + 1 is
    stored as inner length although the outer length is the float
    2.0**53: it is rounded to 2.0**53 before the test. *)
Lemma numpy_integer_above_the_outer_length_is_stored :
  exists h',
    AnnulusInnerScalarLength___set__ (H := numpy_via_float64) "radius"
      (mk_annulus 1%positive 2%positive) (PyNumpy "int64" 9007199254740993)
      (circle_operands (PyFloat 3) (PyFloat 9007199254740992)) = (inr tt, h')
    /\ attr_of h' 1%positive "radius" = inr (PyNumpy "int64" 9007199254740993).
Proof. eexists. split; reflexivity. Qed.

Lemma stored_descriptor (h : heap) (n : string) (d : RegionAttr) (o : objid) (v : pyval) :
  let h1 := mk_heap (<[n := stored d o v]> (class_attrs h)) (inst_dict h) in
  class_attrs h1 !! n = Some (stored d o v)
  /\ attr_cls (stored d o v) = attr_cls d
  /\ forall o', RegionAttr___get__ (stored d o v) o'
                = if bool_decide (o = o') then v else RegionAttr___get__ d o'.
Proof.
  simpl. split; [apply lookup_insert_eq|]. split; [reflexivity|].
  intros o'. unfold stored. apply RegionAttr_get_insert.
Qed.

(** X3: moving both bounds of an annulus with distinct operands, which
    hold Python numbers (bool, int or finite float), to new Python
    numbers [vi <= vo].  Writing the outer bound first and then the inner
    one succeeds when the old inner bound is not above the new outer one;
    writing the inner bound first succeeds when the new inner bound is
    not above the old outer one; in both cases the operands end up with
    [vi] and [vo].  When the new inner bound is above the old outer one,
    writing the inner bound first raises [ValueError] and changes
    nothing. *)
Theorem annulus_bounds_move_in_the_right_order {Np : NumpyCompare} (h : heap) (n : string)
    (instance : annulus)
    (d : RegionAttr) (i o qi qo : Q) (vi vo : pyval) :
  class_attrs h !! n = Some d -> attr_cls d = ScalarLength ->
  region1 instance <> region2 instance ->
  as_number (RegionAttr___get__ d (region1 instance)) = Some i ->
  as_number (RegionAttr___get__ d (region2 instance)) = Some o ->
  as_number vi = Some qi -> as_number vo = Some qo -> (qi <= qo)%Q ->
  ((i <= qo)%Q ->
     exists h', (let* u := AnnulusOuterScalarLength___set__ n instance vo in
                 AnnulusInnerScalarLength___set__ n instance vi) h = (inr tt, h')
                /\ attr_of h' (region1 instance) n = inr vi
                /\ attr_of h' (region2 instance) n = inr vo)
  /\ ((qi <= o)%Q ->
     exists h', (let* u := AnnulusInnerScalarLength___set__ n instance vi in
                 AnnulusOuterScalarLength___set__ n instance vo) h = (inr tt, h')
                /\ attr_of h' (region1 instance) n = inr vi
                /\ attr_of h' (region2 instance) n = inr vo)
  /\ ((o < qi)%Q ->
     exists e, (let* u := AnnulusInnerScalarLength___set__ n instance vi in
                AnnulusOuterScalarLength___set__ n instance vo) h = (inl e, h)
               /\ exn_cls e = ValueError).
Proof.
  intros Hd Hc Hne Hi Ho Hvi Hvo Hle. split; [|split].
  - intros Hiqo. unfold bind.
    rewrite (AnnulusOuterScalarLength_set_numeric h n instance vo d i qo Hd Hc Hi Hvo).
    rewrite (proj2 (Qltb_ge qo i) Hiqo).
    destruct (stored_descriptor h n d (region2 instance) vo) as (Hd1 & Hc1 & Hg1).
    set (h1 := mk_heap _ _) in *.
    rewrite (AnnulusInnerScalarLength_set_numeric h1 n instance vi _ qo qi Hd1).
    + rewrite (proj2 (Qltb_ge qo qi) Hle).
      eexists. split; [reflexivity|]. split.
      * rewrite (attr_of_stored h1 _ _ n n vi _ Hd1).
        rewrite bool_decide_eq_true_2 by auto. reflexivity.
      * rewrite (attr_of_stored h1 _ _ n n vi _ Hd1).
        rewrite bool_decide_eq_false_2 by (intros [_ E]; contradiction).
        rewrite (attr_of_descriptor h1 _ n _ Hd1), Hg1.
        rewrite bool_decide_eq_true_2 by reflexivity. reflexivity.
    + rewrite Hc1. exact Hc.
    + rewrite Hg1, bool_decide_eq_true_2 by reflexivity. exact Hvo.
    + exact Hvi.
  - intros Hqio. unfold bind.
    rewrite (AnnulusInnerScalarLength_set_numeric h n instance vi d o qi Hd Hc Ho Hvi).
    rewrite (proj2 (Qltb_ge o qi) Hqio).
    destruct (stored_descriptor h n d (region1 instance) vi) as (Hd1 & Hc1 & Hg1).
    set (h1 := mk_heap _ _) in *.
    rewrite (AnnulusOuterScalarLength_set_numeric h1 n instance vo _ qi qo Hd1).
    + rewrite (proj2 (Qltb_ge qo qi) Hle).
      eexists. split; [reflexivity|]. split.
      * rewrite (attr_of_stored h1 _ _ n n vo _ Hd1).
        rewrite bool_decide_eq_false_2 by (intros [_ E]; apply Hne; symmetry; exact E).
        rewrite (attr_of_descriptor h1 _ n _ Hd1), Hg1.
        rewrite bool_decide_eq_true_2 by reflexivity. reflexivity.
      * rewrite (attr_of_stored h1 _ _ n n vo _ Hd1).
        rewrite bool_decide_eq_true_2 by auto. reflexivity.
    + rewrite Hc1. exact Hc.
    + rewrite Hg1, bool_decide_eq_true_2 by reflexivity. exact Hvi.
    + exact Hvo.
  - intros Hlt. unfold bind.
    rewrite (AnnulusInnerScalarLength_set_numeric h n instance vi d o qi Hd Hc Ho Hvi).
    rewrite (proj2 (Qltb_lt o qi) Hlt). eexists. split; reflexivity.
Qed.

Lemma annulus_bounds_move_in_the_right_order_witness :
  exists h',
    (let* u := AnnulusOuterScalarLength___set__ (H := numpy_via_float64) "radius" (mk_annulus 1%positive 2%positive)
                 (PyFloat 8) in
     AnnulusInnerScalarLength___set__ (H := numpy_via_float64) "radius" (mk_annulus 1%positive 2%positive) (PyFloat 6))
      (circle_operands (PyFloat 3) (PyFloat 5)) = (inr tt, h')
    /\ attr_of h' 1%positive "radius" = inr (PyFloat 6)
    /\ attr_of h' 2%positive "radius" = inr (PyFloat 8).
Proof.
  apply (proj1 (annulus_bounds_move_in_the_right_order (Np := numpy_via_float64)
                  (circle_operands (PyFloat 3) (PyFloat 5)) "radius"
                  (mk_annulus 1%positive 2%positive)
                  (mk_RegionAttr ScalarLength "radius"
                     (<[1%positive := PyFloat 3]> (<[2%positive := PyFloat 5]> ∅)))
                  3 5 6 8 (PyFloat 6) (PyFloat 8)
                  eq_refl eq_refl ltac:(discriminate) eq_refl eq_refl eq_refl eq_refl
                  ltac:(discriminate))).
  discriminate.
Defined.

Lemma annulus_length_strictly_out_of_order_rejected_witness :
  exists e,
    AnnulusInnerScalarLength___set__ (H := numpy_via_float64) "radius" (mk_annulus 1%positive 2%positive) (PyFloat 6)
      (circle_operands (PyFloat 3) (PyFloat 5))
    = (inl e, circle_operands (PyFloat 3) (PyFloat 5))
    /\ exn_cls e = ValueError /\ exn_args e = [PyStr "radius"].
Proof.
  apply (proj1 (annulus_length_strictly_out_of_order_rejected (Np := numpy_via_float64)
                  (circle_operands (PyFloat 3) (PyFloat 5)) "radius"
                  (mk_annulus 1%positive 2%positive) (PyFloat 6)
                  (mk_RegionAttr ScalarLength "radius"
                     (<[1%positive := PyFloat 3]> (<[2%positive := PyFloat 5]> ∅)))
                  3 5 6 eq_refl eq_refl eq_refl eq_refl eq_refl)).
  reflexivity.
Defined.

Lemma annulus_length_in_order_stored_witness :
  exists h',
    AnnulusInnerScalarLength___set__ (H := numpy_via_float64) "radius" (mk_annulus 1%positive 2%positive) (PyFloat 4)
      (circle_operands (PyFloat 3) (PyFloat 5)) = (inr tt, h')
    /\ attr_of h' 1%positive "radius" = inr (PyFloat 4)
    /\ forall o n', ~ (n' = "radius" /\ o = 1%positive) ->
         attr_of h' o n' = attr_of (circle_operands (PyFloat 3) (PyFloat 5)) o n'.
Proof.
  apply (proj1 (annulus_length_in_order_stored (Np := numpy_via_float64)
                  (circle_operands (PyFloat 3) (PyFloat 5)) "radius"
                  (mk_annulus 1%positive 2%positive) (PyFloat 4)
                  (mk_RegionAttr ScalarLength "radius"
                     (<[1%positive := PyFloat 3]> (<[2%positive := PyFloat 5]> ∅)))
                  3 5 4 eq_refl eq_refl eq_refl eq_refl eq_refl)).
  discriminate.
Defined.

(** ** Histories of writes to the metadata dictionaries *)

Section RestrictedDict.
Variable setitem : string -> pyval -> M (gmap string pyval) unit.
Variable getitem : string -> M (gmap string pyval) pyval.
Variable mapping : gmap string string.
Variable valid : list string.
Variable msg : string.

Hypothesis setitem_eq : forall key v d,
  setitem key v d
  = if bool_decide (dict_get mapping key key ∈ valid)
    then (inr tt, <[dict_get mapping key key := v]> d)
    else (inl (Raise KeyError msg [PyStr (dict_get mapping key key)]), d).

Hypothesis getitem_eq : forall key d,
  getitem key d = dict___getitem__ (dict_get mapping key key) d.

Lemma store_all_lookup (ops : list (string * pyval)) (k : string) :
  forall d : gmap string pyval,
    store_all setitem ops d !! k
    = match last_written mapping valid k ops with
      | Some v => Some v
      | None => d !! k
      end.
Proof.
  induction ops as [|[key v] rest IH]; intros d; simpl; [reflexivity|].
  rewrite IH. destruct (last_written mapping valid k rest); [reflexivity|].
  rewrite setitem_eq.
  destruct (decide (dict_get mapping key key = k)) as [<-|Hne].
  - rewrite (bool_decide_eq_true_2 (dict_get mapping key key = dict_get mapping key key))
      by reflexivity.
    destruct (bool_decide (dict_get mapping key key ∈ valid)); simpl; [|reflexivity].
    apply lookup_insert_eq.
  - rewrite (bool_decide_eq_false_2 _ Hne). simpl.
    destruct (bool_decide (dict_get mapping key key ∈ valid)); simpl; [|reflexivity].
    apply lookup_insert_ne. exact Hne.
Qed.

Lemma store_all_read (ops : list (string * pyval)) (key : string) (d : gmap string pyval) :
  fst (getitem key (store_all setitem ops d))
  = match last_written mapping valid (dict_get mapping key key) ops with
    | Some v => inr v
    | None => fst (getitem key d)
    end.
Proof.
  rewrite !getitem_eq. unfold dict___getitem__. rewrite store_all_lookup.
  destruct (last_written mapping valid (dict_get mapping key key) ops); [reflexivity|].
  destruct (d !! dict_get mapping key key); reflexivity.
Qed.

Lemma store_all_within (ops : list (string * pyval)) :
  forall d : gmap string pyval,
    (forall k, is_Some (d !! k) -> k ∈ valid) ->
    forall k, is_Some (store_all setitem ops d !! k) -> k ∈ valid.
Proof.
  induction ops as [|[key v] rest IH]; intros d Hd; simpl; [exact Hd|].
  apply IH. rewrite setitem_eq. case_bool_decide as Hin; simpl; [|exact Hd].
  intros k. rewrite lookup_insert. case_decide as Hk; [subst k; auto | apply Hd].
Qed.

Lemma read_outside_vocabulary (d : gmap string pyval) (key : string) :
  (forall k, is_Some (d !! k) -> k ∈ valid) ->
  dict_get mapping key key ∉ valid ->
  getitem key d = (inl (Raise KeyError "{}" [PyStr (dict_get mapping key key)]), d).
Proof.
  intros Hd Hout. rewrite getitem_eq. unfold dict___getitem__.
  destruct (d !! dict_get mapping key key) eqn:E; [|reflexivity].
  exfalso. apply Hout, Hd. rewrite E. eauto.
Qed.

End RestrictedDict.

Lemma RegionMeta_setitem_eq (key : string) (v : pyval) (d : gmap string pyval) :
  RegionMeta___setitem__ key v d
  = if bool_decide (dict_get RegionMeta_key_mapping key key ∈ RegionMeta_valid_keys)
    then (inr tt, <[dict_get RegionMeta_key_mapping key key := v]> d)
    else (inl (Raise KeyError "{} is not a valid meta key for region."
                 [PyStr (dict_get RegionMeta_key_mapping key key)]), d).
Proof. unfold RegionMeta___setitem__. case_bool_decide; reflexivity. Qed.

Lemma RegionVisual_setitem_eq (key : string) (v : pyval) (d : gmap string pyval) :
  RegionVisual___setitem__ key v d
  = if bool_decide (dict_get RegionVisual_key_mapping key key ∈ RegionVisual_valid_keys)
    then (inr tt, <[dict_get RegionVisual_key_mapping key key := v]> d)
    else (inl (Raise KeyError "{} is not a valid visual meta key for region."
                 [PyStr (dict_get RegionVisual_key_mapping key key)]), d).
Proof. unfold RegionVisual___setitem__. case_bool_decide; reflexivity. Qed.

(** X4: what a read of a metadata dictionary returns after any sequence
    of item assignments (those that raise included) to a dictionary [d]:
    the value of the last assignment made under a key with the same
    resolution through the alias table, provided that resolution is in
    the vocabulary; and when there is no such assignment, what the read
    returned on [d].  So a value written under "point" is read back under
    "symbol" and under "point", and an assignment under another key does
    not disturb it.  For [RegionMeta] and for [RegionVisual]. *)
Theorem metadata_read_is_last_write (ops : list (string * pyval)) (key : string)
    (d : gmap string pyval) :
  fst (RegionMeta___getitem__ key (store_all RegionMeta___setitem__ ops d))
  = match last_written RegionMeta_key_mapping RegionMeta_valid_keys
            (dict_get RegionMeta_key_mapping key key) ops with
    | Some v => inr v
    | None => fst (RegionMeta___getitem__ key d)
    end
  /\ fst (RegionVisual___getitem__ key (store_all RegionVisual___setitem__ ops d))
  = match last_written RegionVisual_key_mapping RegionVisual_valid_keys
            (dict_get RegionVisual_key_mapping key key) ops with
    | Some v => inr v
    | None => fst (RegionVisual___getitem__ key d)
    end.
Proof.
  split.
  - apply (store_all_read _ _ _ _ _ RegionMeta_setitem_eq). reflexivity.
  - apply (store_all_read _ _ _ _ _ RegionVisual_setitem_eq). reflexivity.
Qed.

(** X5: a metadata dictionary whose keys are all in the vocabulary keeps
    that property under any sequence of item assignments, so no alias
    name and no unknown name ever becomes a key; and on such a dictionary
    a read under a key whose resolution is outside the vocabulary raises
    the plain [KeyError] of a missing key, carrying that key, and leaves
    the dictionary alone.  For [RegionMeta] and for [RegionVisual]. *)
Theorem metadata_keys_stay_in_vocabulary (ops : list (string * pyval))
    (d : gmap string pyval) :
  ((forall k, is_Some (d !! k) -> k ∈ RegionMeta_valid_keys) ->
   let d' := store_all RegionMeta___setitem__ ops d in
   (forall k, is_Some (d' !! k) -> k ∈ RegionMeta_valid_keys)
   /\ forall key, dict_get RegionMeta_key_mapping key key ∉ RegionMeta_valid_keys ->
        RegionMeta___getitem__ key d'
        = (inl (Raise KeyError "{}" [PyStr (dict_get RegionMeta_key_mapping key key)]), d'))
  /\ ((forall k, is_Some (d !! k) -> k ∈ RegionVisual_valid_keys) ->
      let d' := store_all RegionVisual___setitem__ ops d in
      (forall k, is_Some (d' !! k) -> k ∈ RegionVisual_valid_keys)
      /\ forall key, dict_get RegionVisual_key_mapping key key ∉ RegionVisual_valid_keys ->
           RegionVisual___getitem__ key d'
           = (inl (Raise KeyError "{}" [PyStr (dict_get RegionVisual_key_mapping key key)]),
              d')).
Proof.
  split; intros Hd d'.
  - assert (Hd' : forall k, is_Some (d' !! k) -> k ∈ RegionMeta_valid_keys)
      by (apply (store_all_within _ _ _ _ RegionMeta_setitem_eq); exact Hd).
    split; [exact Hd'|]. intros key Hout.
    apply (read_outside_vocabulary RegionMeta___getitem__ RegionMeta_key_mapping
             RegionMeta_valid_keys); [reflexivity | exact Hd' | exact Hout].
  - assert (Hd' : forall k, is_Some (d' !! k) -> k ∈ RegionVisual_valid_keys)
      by (apply (store_all_within _ _ _ _ RegionVisual_setitem_eq); exact Hd).
    split; [exact Hd'|]. intros key Hout.
    apply (read_outside_vocabulary RegionVisual___getitem__ RegionVisual_key_mapping
             RegionVisual_valid_keys); [reflexivity | exact Hd' | exact Hout].
Qed.

Lemma metadata_keys_stay_in_vocabulary_witness :
  let d' := store_all RegionMeta___setitem__
              [("point", PyStr "x"); ("nonsense", PyInt 1); ("text", PyStr "t")] ∅ in
  (forall k, is_Some (d' !! k) -> k ∈ RegionMeta_valid_keys)
  /\ forall key, dict_get RegionMeta_key_mapping key key ∉ RegionMeta_valid_keys ->
       RegionMeta___getitem__ key d'
       = (inl (Raise KeyError "{}" [PyStr (dict_get RegionMeta_key_mapping key key)]), d').
Proof.
  apply (proj1 (metadata_keys_stay_in_vocabulary
                  [("point", PyStr "x"); ("nonsense", PyInt 1); ("text", PyStr "t")] ∅)).
  intros k [v Hv]. rewrite lookup_empty in Hv. discriminate Hv.
Defined.

(** ** Constrained attributes *)

(** X6: in any sequence of assignments to a constrained attribute, the
    assignments whose value the class refuses can be dropped: the
    descriptor ends up exactly as if only the accepted ones had been
    made, in the same order. *)
Theorem refused_assignments_leave_no_trace (ops : list (objid * pyval)) :
  forall d : RegionAttr,
    assign_all ops d
    = assign_all (List.filter (fun op => attr_accepts (attr_cls d) (snd op)) ops) d.
Proof.
  induction ops as [|[i v] rest IH]; intros d; simpl; [reflexivity|].
  destruct (attr_accepts (attr_cls d) v) eqn:Hv; simpl.
  - rewrite IH. rewrite RegionAttr_set_keeps_class. reflexivity.
  - rewrite RegionAttr_set_rejected by exact Hv. simpl. apply IH.
Qed.

(** X7: the classes of constrained attribute accept pairwise disjoint
    sets of values: a value accepted by one class is refused by every
    other.  In particular a quantity is never a valid [ScalarLength], a
    plain number never a valid [QuantityLength], and no pixel coordinate
    is both a valid 0-D and a valid 1-D one. *)
Theorem attribute_class_is_determined_by_value (c1 c2 : attr_class) (v : pyval) :
  attr_accepts c1 v = true -> attr_accepts c2 v = true -> c1 = c2.
Proof.
  destruct v as [| | | | | | | | |p|s|q|r]; destruct c1; simpl; try discriminate;
    destruct c2; simpl; try discriminate; try reflexivity.
  - destruct p; simpl; discriminate.
  - destruct p; simpl; discriminate.
  - unfold SkyCoord_isscalar. destruct (SkyCoord_ndim s) as [|[|k]]; simpl; discriminate.
  - unfold SkyCoord_isscalar. destruct (SkyCoord_ndim s) as [|[|k]]; simpl; discriminate.
  - destruct (frame_of r); discriminate.
  - destruct (frame_of r); discriminate.
Qed.

Lemma attribute_class_is_determined_by_value_witness : ScalarLength = ScalarLength.
Proof.
  apply (attribute_class_is_determined_by_value ScalarLength ScalarLength (PyFloat 3));
    reflexivity.
Defined.

(** ** The region algebra *)

Ltac finish_outcome :=
  repeat match goal with
         | H : _ \/ _ |- _ => destruct H
         | H : exists _, _ |- _ => destruct H
         | H : inr _ = inr _ |- _ => injection H as <-
         | H : inl _ = inl _ |- _ => injection H as <-
         end;
  try discriminate; try contradiction; eauto.

(** X8: each of [intersection], [union] and [symmetric_difference]
    returns a region exactly when the other operand is a region of the
    frame family of [self]; the region returned is of that family again,
    so the operations nest to any depth; and when one raises, the
    operand refused is always [region2], never [self]. *)
Theorem algebra_is_closed_within_a_frame (a : Region) (other : pyval) :
  let same_frame := exists b, other = PyRegion b /\ frame_of b = frame_of a in
  ((exists c, intersection a other = inr c) <-> same_frame)
  /\ ((exists c, union a other = inr c) <-> same_frame)
  /\ ((exists c, symmetric_difference a other = inr c) <-> same_frame)
  /\ (forall c, (intersection a other = inr c \/ union a other = inr c
                 \/ symmetric_difference a other = inr c) ->
                frame_of c = frame_of a)
  /\ (forall e, (intersection a other = inl e \/ union a other = inl e
                 \/ symmetric_difference a other = inl e) ->
                exn_cls e = ValueError /\ exn_args e = [PyStr "region2"]).
Proof.
  intros same_frame.
  assert (Hcase :
    (same_frame /\ forall op,
        (match frame_of a with
         | Pixel => CompoundPixelRegion (PyRegion a) other op
         | Sky => CompoundSkyRegion (PyRegion a) other op
         end) = inr (Compound (frame_of a) (PyRegion a) other op))
    \/ (~ same_frame /\ forall op,
        (match frame_of a with
         | Pixel => CompoundPixelRegion (PyRegion a) other op
         | Sky => CompoundSkyRegion (PyRegion a) other op
         end)
        = inl (Raise ValueError
                 (attr_message (match frame_of a with
                                | Pixel => CompoundRegionPix
                                | Sky => CompoundRegionSky
                                end)) [PyStr "region2"]))).
  { subst same_frame.
    destruct (frame_of a) eqn:Ha.
    - destruct (isinstance_PixelRegion other) eqn:Ho.
      + left. split.
        * destruct other; try discriminate Ho. simpl in Ho.
          destruct (frame_of r) eqn:Hr; [|discriminate]. eauto.
        * intros op. rewrite CompoundPixelRegion_accepts. simpl. rewrite Ha, Ho. reflexivity.
      + right. split.
        * intros [b [-> Hb]]. simpl in Ho. rewrite Hb in Ho. discriminate.
        * intros op. rewrite CompoundPixelRegion_accepts. simpl. rewrite Ha, Ho. reflexivity.
    - destruct (isinstance_SkyRegion other) eqn:Ho.
      + left. split.
        * destruct other; try discriminate Ho. simpl in Ho.
          destruct (frame_of r) eqn:Hr; [discriminate|]. eauto.
        * intros op. rewrite CompoundSkyRegion_accepts. simpl. rewrite Ha, Ho. reflexivity.
      + right. split.
        * intros [b [-> Hb]]. simpl in Ho. rewrite Hb in Ho. discriminate.
        * intros op. rewrite CompoundSkyRegion_accepts. simpl. rewrite Ha, Ho. reflexivity. }
  unfold intersection, union, symmetric_difference,
    PixelRegion_intersection, PixelRegion_union, PixelRegion_symmetric_difference,
    SkyRegion_intersection, SkyRegion_union, SkyRegion_symmetric_difference.
  destruct Hcase as [[Hsame Hok] | [Hdiff Hko]].
  - pose proof (Hok operator_and_) as H1. pose proof (Hok operator_or_) as H2.
    pose proof (Hok operator_xor) as H3.
    destruct (frame_of a); rewrite H1, H2, H3; repeat split; intros; finish_outcome.
  - pose proof (Hko operator_and_) as H1. pose proof (Hko operator_or_) as H2.
    pose proof (Hko operator_xor) as H3.
    destruct (frame_of a); rewrite H1, H2, H3; repeat split; intros; finish_outcome.
Qed.

(** ** Printing a region *)

Lemma attr_of_raises_AttributeError (h : heap) (o : objid) (n : string) (e : exn) :
  attr_of h o n = inl e -> exn_cls e = AttributeError.
Proof.
  rewrite attr_of_eq. destruct (class_attrs h !! n); [discriminate|].
  destruct (inst_dict h !! (o, n)); [discriminate|]. intros [= <-]. reflexivity.
Qed.

Lemma with_center {A B} (yes : pyval -> A) (no : A) (k : A -> M heap B)
    (self : objid) (h : heap) :
  (let* has_center := hasattr self "center" in
   let* x := (if (has_center : bool)
              then let* center := getattr self "center" in ret (yes center)
              else ret no) in
   k x) h
  = k (match attr_of h self "center" with inr c => yes c | inl _ => no end) h.
Proof.
  unfold hasattr, bind, get_state, ret.
  destruct (attr_of h self "center") as [e|c] eqn:E; [reflexivity|].
  cbv beta iota. rewrite getattr_pure, E. reflexivity.
Qed.

Section Printing.
Context {F : Formatting}.
Variable self : objid.
Variable h : heap.

Lemma repr_loop_outcome (keys : list string) :
  forall params, reads_and_returns_iff (repr_loop self keys params) h (has_attributes h self keys).
Proof.
  unfold reads_and_returns_iff, has_attributes.
  induction keys as [|key rest IH]; intros params; simpl.
  - exists (inr params). split; [reflexivity|]. split; [|discriminate].
    split; [|eauto]. intros _ key Hk. apply elem_of_nil in Hk. contradiction.
  - unfold bind at 1. rewrite getattr_pure.
    destruct (attr_of h self key) as [e|v] eqn:E.
    + exists (inl e). split; [reflexivity|]. split.
      * split; [intros [a Ha]; discriminate|].
        intros Hp. destruct (Hp key) as [v Hv]; [left|]. congruence.
      * intros e' [= <-]. exact (attr_of_raises_AttributeError _ _ _ _ E).
    + destruct (IH (app params [str_replace underscore space key ++ "=" ++ py_str v]))
        as (r & Hr & Hiff & Herr).
      exists r. split; [exact Hr|]. split; [|exact Herr].
      rewrite Hiff. split.
      * intros Hp k Hk. apply elem_of_cons in Hk as [->|Hk]; eauto.
      * intros Hp k Hk. apply Hp. right. exact Hk.
Qed.

Lemma str_params_outcome (keys : list string) :
  reads_and_returns_iff (str_params self keys) h (has_attributes h self keys).
Proof.
  unfold reads_and_returns_iff, has_attributes.
  induction keys as [|key rest IH]; simpl.
  - exists (inr []). split; [reflexivity|]. split; [|discriminate].
    split; [|eauto]. intros _ key Hk. apply elem_of_nil in Hk. contradiction.
  - unfold bind at 1. rewrite getattr_pure.
    destruct (attr_of h self key) as [e|v] eqn:E.
    + exists (inl e). split; [reflexivity|]. split.
      * split; [intros [a Ha]; discriminate|].
        intros Hp. destruct (Hp key) as [v Hv]; [left|]. congruence.
      * intros e' [= <-]. exact (attr_of_raises_AttributeError _ _ _ _ E).
    + destruct IH as (r & Hr & Hiff & Herr). unfold bind. rewrite Hr.
      destruct r as [e|others].
      * exists (inl e). split; [reflexivity|]. split.
        -- split; [intros [a Ha]; discriminate|].
           intros Hp. apply Hiff. intros k Hk. apply Hp. right. exact Hk.
        -- intros e' [= <-]. apply Herr. reflexivity.
      * exists (inr ((str_replace underscore space key, v) :: others)).
        split; [reflexivity|]. split; [|discriminate].
        split; [|eauto]. intros _ k Hk.
        apply elem_of_cons in Hk as [->|Hk]; [eauto|].
        apply (proj1 Hiff); eauto.
Qed.

Lemma then_return {A B} (m : M heap A) (f : A -> B) (P : Prop) :
  reads_and_returns_iff m h P ->
  reads_and_returns_iff (let* a := m in ret (f a)) h P.
Proof.
  intros (r & Hr & Hiff & Herr). unfold reads_and_returns_iff, bind, ret. rewrite Hr.
  destruct r as [e|a].
  - exists (inl e). split; [reflexivity|]. split.
    + rewrite <- Hiff. split; intros [x Hx]; discriminate.
    + intros e' [= <-]. apply Herr. reflexivity.
  - exists (inr (f a)). split; [reflexivity|]. split; [|discriminate].
    rewrite <- Hiff. split; eauto.
Qed.

(** X9: [__repr__] and [__str__] only read the region.  Each returns
    a string exactly when every name of [_repr_params] (none when it is
    [None]) is an attribute of the region, and otherwise raises the
    [AttributeError] of the missing attribute; a region without a
    [center] is printed without one and is no error.  So [repr] works on
    a region exactly when [str] does. *)
Theorem printing_needs_exactly_the_repr_params (class_name : string)
    (_repr_params : option (list string)) :
  reads_and_returns_iff (Region___repr__ class_name _repr_params self) h
    (has_attributes h self (default [] _repr_params))
  /\ reads_and_returns_iff (Region___str__ class_name _repr_params self) h
    (has_attributes h self (default [] _repr_params)).
Proof.
  split.
  - unfold Region___repr__.
    pose proof (with_center (fun c => [py_repr c]) []
      (fun params =>
         let* params := match _repr_params with
                        | Some keys => repr_loop self keys params
                        | None => ret params
                        end in
         ret ("<" ++ class_name ++ "(" ++ String.concat ", " params ++ ")>")) self h) as Hc.
    unfold reads_and_returns_iff. cbv zeta. rewrite Hc.
    apply then_return. destruct _repr_params as [keys|]; simpl.
    2: unfold reads_and_returns_iff, has_attributes.
    + apply repr_loop_outcome.
    + eexists. split; [reflexivity|]. split; [|discriminate].
      split; [|eauto]. intros _ key Hk. apply elem_of_nil in Hk. contradiction.
  - unfold Region___str__.
    pose proof (with_center
      (fun c => app [("Region", PyStr class_name)] [("center", c)])
      [("Region", PyStr class_name)]
      (fun cls_info =>
         let* cls_info := match _repr_params with
                          | Some keys =>
                              let* params_value := str_params self keys in
                              ret (app cls_info params_value)
                          | None => ret cls_info
                          end in
         ret (String.concat newline
                (map (fun kv : string * pyval => fst kv ++ ": " ++ py_str (snd kv))
                   cls_info))) self h) as Hc.
    unfold reads_and_returns_iff. cbv zeta. rewrite Hc.
    apply then_return. destruct _repr_params as [keys|]; simpl.
    2: unfold reads_and_returns_iff, has_attributes.
    + apply then_return. apply str_params_outcome.
    + eexists. split; [reflexivity|]. split; [|discriminate].
      split; [|eauto]. intros _ key Hk. apply elem_of_nil in Hk. contradiction.
Qed.

End Printing.

(** ** The shared attributes of an annulus *)

Lemma shared_write_outcome (instance : annulus) (op : shared_write) (h : heap) :
  let n := match op with SetAngle _ => "angle" | _ => "center" end in
  let v := match op with SetCenterPix v | SetCenterSky v | SetAngle v => v end in
  snd (shared_write_run instance op h) = h
  \/ (attr_of (snd (shared_write_run instance op h)) (region1 instance) n = inr v
      /\ attr_of (snd (shared_write_run instance op h)) (region2 instance) n = inr v
      /\ forall o n', n' <> n ->
           attr_of (snd (shared_write_run instance op h)) o n' = attr_of h o n').
Proof.
  intros n v.
  assert (Hlinked :
    snd ((let* u := setattr (region1 instance) n v in setattr (region2 instance) n v) h) = h
    \/ (let h' := snd ((let* u := setattr (region1 instance) n v in
                        setattr (region2 instance) n v) h) in
        attr_of h' (region1 instance) n = inr v /\ attr_of h' (region2 instance) n = inr v
        /\ forall o n', n' <> n -> attr_of h' o n' = attr_of h o n')).
  { destruct (linked_write h (region1 instance) (region2 instance) n v)
      as [(d & _ & _ & Hrun) | (h' & Hrun & H1 & H2 & _ & Hframe)]; rewrite Hrun.
    - left. reflexivity.
    - right. simpl. repeat split; auto. intros o n' Hn. apply Hframe. intros [E _]. auto. }
  subst n v. destruct op as [v|v|v]; simpl shared_write_run.
  - unfold AnnulusCenterPix___set__.
    destruct (isinstance_PixCoord v && isscalar v); [exact Hlinked | left; reflexivity].
  - unfold AnnulusCenterSky___set__.
    destruct (isinstance_SkyCoord v && isscalar v); [exact Hlinked | left; reflexivity].
  - unfold AnnulusAngle___set__.
    destruct (isinstance_Quantity v && isscalar v); [exact Hlinked | left; reflexivity].
Qed.

(** X10: two operands that read the same for [center] and for [angle]
    keep doing so under any sequence of assignments to the center (pixel
    or sky) and to the angle of the annulus, whatever the values and
    whichever assignments raise: no assignment through the annulus ever
    leaves the operands with different centers or different angles. *)
Theorem annulus_operands_stay_aligned (instance : annulus) (ops : list shared_write)
    (h : heap) :
  operands_agree instance h -> operands_agree instance (write_shared instance ops h).
Proof.
  revert h. induction ops as [|op rest IH]; intros h Hh; simpl; [exact Hh|].
  apply IH. destruct Hh as [Hc Ha].
  destruct (shared_write_outcome instance op h) as [-> | (H1 & H2 & Hframe)].
  - split; assumption.
  - set (h' := snd (shared_write_run instance op h)) in *. clearbody h'.
    unfold operands_agree. destruct op as [v|v|v]; cbv zeta iota beta in H1, H2, Hframe.
    + split; [congruence|]. rewrite !Hframe by discriminate. exact Ha.
    + split; [congruence|]. rewrite !Hframe by discriminate. exact Ha.
    + split; [|congruence]. rewrite !Hframe by discriminate. exact Hc.
Qed.

Lemma annulus_operands_stay_aligned_witness :
  operands_agree (mk_annulus 1%positive 2%positive)
    (write_shared (mk_annulus 1%positive 2%positive)
       [SetCenterPix (PyPixCoord (PixCoord_scalar 1 2)); SetCenterPix PyNone;
        SetAngle (PyFloat 3)]
       (circle_operands (PyFloat 3) (PyFloat 5))).
Proof.
  apply (annulus_operands_stay_aligned (mk_annulus 1%positive 2%positive)
           [SetCenterPix (PyPixCoord (PixCoord_scalar 1 2)); SetCenterPix PyNone;
            SetAngle (PyFloat 3)]
           (circle_operands (PyFloat 3) (PyFloat 5))).
  split; reflexivity.
Defined.

Lemma algebra_is_closed_within_a_frame_witness :
  frame_of (Compound Pixel (PyRegion (Shape Pixel 1%positive))
              (PyRegion (Shape Pixel 2%positive)) operator_or_)
  = frame_of (Shape Pixel 1%positive).
Proof.
  apply (proj1 (proj2 (proj2 (proj2
           (algebra_is_closed_within_a_frame (Shape Pixel 1%positive)
              (PyRegion (Shape Pixel 2%positive))))))).
  right. left. reflexivity.
Defined.
